(** * perfkitbenchmarker/dpb_service.py: job submission and polling

    A shallow embedding of the data processing backend (DPB) service layer of
    PerfKitBenchmarker: the [JobResult] timing record, the exception classes
    the module raises and catches, the property merge of [SubmitJob], the
    command lines of the two unmanaged backends, the polling protocol of
    [_WaitForJob] and the wall-time computation.

    Conventions.
    - Instants and durations are integers counting microseconds (the
      resolution of [datetime]); a duration in seconds is the exact rational
      [micros / 10^6], of which Python's float is the nearest double.
    - A Python [dict] is an insertion-ordered association list with distinct
      keys; the order matters because it is the order of the command line.
    - Effects (clock, remote commands, files) are threaded through an
      abstract [World]; a method is a function [World -> result A * World]. *)

From Stdlib Require Import ZArith QArith String Ascii List Lia.
From stdpp Require Import base option list strings gmap.

Local Open Scope string_scope.
Local Open Scope Z_scope.
Local Open Scope list_scope.

(** ** Exceptions *)

Module Exn.

(** The exception classes that occur in the module.  [JobNotCompletedError]
    and [JobSubmissionError] are declared in dpb_service.py; the others are
    Python built-ins or come from perfkitbenchmarker/errors.py. *)
Inductive exn_class : Type :=
  | Exception
  | RuntimeError
  | NotImplementedError
  | ValueError
  | AssertionError
  | OSError
  | RunError               (* errors.Benchmarks.RunError *)
  | RemoteCommandError     (* errors.VirtualMachine.RemoteCommandError *)
  | JobNotCompletedError
  | JobSubmissionError
  | TimeoutError.          (* the timeout condition of the retry policy *)

#[global] Instance exn_class_eq_dec : EqDecision exn_class.
Proof. solve_decision. Defined.

(** Modelled from the spec: errors.py is absent, so the bases of [RunError]
    and [RemoteCommandError] are taken to be plain [Exception]s; section 7
    keeps submission failures, transport errors and the timeout condition
    apart.  The bases of the two classes of dpb_service.py and of the
    built-ins are the declared ones. *)
Definition base (c : exn_class) : option exn_class :=
  match c with
  | Exception => None
  | RuntimeError => Some Exception
  | NotImplementedError => Some RuntimeError
  | ValueError => Some Exception
  | AssertionError => Some Exception
  | OSError => Some Exception
  | RunError => Some Exception
  | RemoteCommandError => Some Exception
  | JobNotCompletedError => Some Exception
  | JobSubmissionError => Some RunError
  | TimeoutError => Some Exception
  end.

(** The chain of a class, then its base, and so on ([fuel] bounds the depth
    of the hierarchy, which is 3). *)
Fixpoint mro_from (fuel : nat) (c : exn_class) : list exn_class :=
  match fuel with
  | O => [c]
  | S k => c :: match base c with
                | Some b => mro_from k b
                | None => []
                end
  end.

Definition mro (c : exn_class) : list exn_class := mro_from 3 c.

Definition issubclass (c d : exn_class) : bool := bool_decide (d ∈ mro c).

(** An exception object: its class, its message and its [__cause__]
    (set by [raise ... from e]). *)
#[warnings="-register-all"]
Inductive exn : Type :=
  | mk_exn (cls : exn_class) (msg : string) (cause : option exn).

Definition exn_cls (e : exn) : exn_class := let 'mk_exn c _ _ := e in c.
Definition exn_msg (e : exn) : string := let 'mk_exn _ m _ := e in m.
Definition exn_cause (e : exn) : option exn := let 'mk_exn _ _ c := e in c.

Definition isinstance (e : exn) (c : exn_class) : bool :=
  issubclass (exn_cls e) c.

(** [except (C1, ..., Cn)] *)
Definition matches (e : exn) (classes : list exn_class) : bool :=
  existsb (isinstance e) classes.

End Exn.
Export Exn.

(** ** Results and the effect monad *)

Inductive result (A : Type) : Type :=
  | Return (a : A)
  | Raise (e : exn).
Arguments Return {A} a.
Arguments Raise {A} e.

Definition result_bind {A B} (r : result A) (k : A -> result B) : result B :=
  match r with
  | Return a => k a
  | Raise e => Raise e
  end.

Section Effects.
Context {World : Type}.

Definition M (A : Type) : Type := World -> result A * World.

Definition ret {A} (a : A) : M A := fun w => (Return a, w).

Definition raise {A} (e : exn) : M A := fun w => (Raise e, w).

Definition bind {A B} (m : M A) (k : A -> M B) : M B :=
  fun w => match m w with
           | (Return a, w') => k a w'
           | (Raise e, w') => (Raise e, w')
           end.

Definition lift {A} (r : result A) : M A := fun w => (r, w).

(** [try: body  except C as e: handler e] *)
Definition try_except {A} (body : M A) (C : exn_class)
    (handler : exn -> M A) : M A :=
  fun w => match body w with
           | (Return a, w') => (Return a, w')
           | (Raise e, w') =>
               if isinstance e C then handler e w' else (Raise e, w')
           end.
End Effects.

Arguments M World A : clear implicits.

Declare Scope py_scope.
Delimit Scope py_scope with py.
Notation "x <- m ;; k" := (bind m (fun x => k))
  (at level 100, m at next level, right associativity) : py_scope.

(** ** Strings, truthiness and dictionaries *)

(** [s.split(sep)] for a one-character separator. *)
Fixpoint split_on (sep : ascii) (s : string) : list string :=
  match s with
  | EmptyString => [EmptyString]
  | String c r =>
      if Ascii.eqb c sep then EmptyString :: split_on sep r
      else match split_on sep r with
           | h :: t => String c h :: t
           | [] => [String c EmptyString]
           end
  end.

(** [sep.join(l)] *)
Definition join (sep : string) (l : list string) : string :=
  String.concat sep l.

(** ['{}={}'.format(k, v)] *)
Definition format_kv (k v : string) : string := k +:+ "=" +:+ v.

(** Truth value of an optional string, and of an optional list:
    [None], [''] and [[]] are false. *)
Definition truthy_str (o : option string) : bool :=
  match o with
  | Some s => negb (String.eqb s "")
  | None => false
  end.

Definition truthy_list {A} (o : option (list A)) : bool :=
  match o with
  | Some (_ :: _) => true
  | _ => false
  end.

Module PyDict.

Definition pydict : Type := list (string * string).

(** [d[k] = v]: an existing key keeps its position. *)
Fixpoint dict_set (k v : string) (d : pydict) : pydict :=
  match d with
  | [] => [(k, v)]
  | (k', v') :: r =>
      if String.eqb k k' then (k, v) :: r else (k', v') :: dict_set k v r
  end.

(** [d.get(k)] *)
Fixpoint dict_get (k : string) (d : pydict) : option string :=
  match d with
  | [] => None
  | (k', v') :: r => if String.eqb k k' then Some v' else dict_get k r
  end.

(** [d.update(other)]: the items of [other] are set in their order. *)
Definition dict_update (d other : pydict) : pydict :=
  fold_left (fun acc kv => dict_set (fst kv) (snd kv) acc) other d.

(** A well-formed dict has no repeated key. *)
Definition wf (d : pydict) : Prop := NoDup (map fst d).

(** [properties or {}] *)
Definition or_empty (o : option pydict) : pydict :=
  match o with
  | Some d => d
  | None => []
  end.


End PyDict.
Export PyDict.

(** ** JobResult *)

(** [@dataclasses.dataclass class JobResult] *)
Record JobResult : Type := mkJobResult {
  run_time : Q;       (* service reported execution time *)
  pending_time : Q    (* service reported pending time *)
}.

(** The generated constructor: [pending_time] has the default 0. *)
Definition JobResult_init (run_time : Q) (pending_time : option Q) : JobResult :=
  mkJobResult run_time (default 0%Q pending_time).

(** [JobResult.wall_time] *)
Definition wall_time (j : JobResult) : Q :=
  (run_time j + pending_time j)%Q.

(** ** Instants *)

Record datetime : Type := mk_datetime { instant_us : Z }.
Record timedelta : Type := mk_timedelta { delta_us : Z }.

(** [a > b] and [a - b] on datetimes *)
Definition datetime_gt (a b : datetime) : bool := instant_us a >? instant_us b.
Definition datetime_sub (a b : datetime) : timedelta :=
  mk_timedelta (instant_us a - instant_us b).

(** [td.total_seconds()] *)
Definition total_seconds (td : timedelta) : Q := Qmake (delta_us td) 1000000.

(** [BaseDpbService._ProcessWallTime] *)
Definition _ProcessWallTime (start_time end_time : datetime) : result Q :=
  if datetime_gt start_time end_time then
    Raise (mk_exn ValueError "start_time cannot be later than the end_time" None)
  else Return (total_seconds (datetime_sub end_time start_time)).

(** ** Collaborators

    What the module takes from the rest of the repository and from the
    Python runtime: flags, constants of the hadoop and spark packages, the
    clock, the leader VM's remote-command transport and the file system. *)

Class Platform (World : Type) : Type := {
  (* FLAGS.dpb_job_properties, FLAGS.run_uri, FLAGS.dpb_service_zone *)
  FLAGS_dpb_job_properties : list string;
  FLAGS_run_uri : string;
  FLAGS_dpb_service_zone : option string;
  (* hadoop.HADOOP_CMD and spark.SPARK_SUBMIT *)
  HADOOP_CMD : string;
  SPARK_SUBMIT : string;
  (* datetime.datetime.now() *)
  datetime_now : World -> datetime * World;
  (* self.leader.RobustRemoteCommand(cmd, should_log=True) *)
  RobustRemoteCommand : string -> M World (string * string);
  (* with open(path, 'w') as f: f.write(data); [Some msg] is an OSError *)
  write_file : string -> string -> World -> option string * World;
  (* time.time() and time.sleep(d) *)
  time_time : World -> Z;
  time_sleep : Z -> World -> World
}.

(** ** BaseDpbService *)

(** Job types that are supported on the dpb service backends *)
Definition PYSPARK_JOB_TYPE : string := "pyspark".
Definition SPARKSQL_JOB_TYPE : string := "spark-sql".
Definition SPARK_JOB_TYPE : string := "spark".
Definition HADOOP_JOB_TYPE : string := "hadoop".
Definition DATAFLOW_JOB_TYPE : string := "dataflow".
Definition BEAM_JOB_TYPE : string := "beam".

(** The keyword arguments of [SubmitJob]; every one defaults to [None]. *)
Record SubmitJobArgs : Type := mkSubmitJobArgs {
  jarfile : option string;
  classname : option string;
  pyspark_file : option string;
  query_file : option string;
  job_poll_interval : option Q;
  job_stdout_file : option string;
  job_arguments : option (list string);
  job_files : option (list string);
  job_jars : option (list string);
  job_type : option string;
  properties : option pydict
}.

Definition no_args : SubmitJobArgs :=
  mkSubmitJobArgs None None None None None None None None None None None.

(** The job interface of a backend: the abstract [SubmitJob] and the
    [_GetCompletedJob] hook. *)
Record DpbService (World : Type) : Type := mkDpbService {
  SubmitJob : SubmitJobArgs -> M World JobResult;
  _GetCompletedJob : string -> M World (option JobResult)
}.
Arguments SubmitJob {World} _ _ _.
Arguments _GetCompletedJob {World} _ _ _.
Arguments mkDpbService {World} _ _.

(** [dict(pair.split('=') for pair in ...)]: every element has to be a
    sequence of exactly two items, later keys overwrite earlier ones. *)
Fixpoint dict_of_pairs (acc : pydict) (l : list (list string)) : result pydict :=
  match l with
  | [] => Return acc
  | [k; v] :: r => dict_of_pairs (dict_set k v acc) r
  | _ :: _ =>
      Raise (mk_exn ValueError "dictionary update sequence element has the wrong length" None)
  end.

(** [BaseDpbService.GetJobProperties] *)
Definition GetJobProperties `{Platform World} : result pydict :=
  dict_of_pairs [] (map (split_on "=") FLAGS_dpb_job_properties).

(** [all_properties = self.GetJobProperties();
     all_properties.update(properties or {})] *)
Definition merged_properties `{Platform World}
    (properties : option pydict) : result pydict :=
  result_bind GetJobProperties
    (fun all_properties => Return (dict_update all_properties (or_empty properties))).

(** [BaseDpbService._GetCompletedJob] *)
Definition BaseDpbService_GetCompletedJob {World} (job_id : string)
    : M World (option JobResult) :=
  raise (mk_exn NotImplementedError
    "You need to implement _GetCompletedJob if you use _WaitForJob" None).

(** [BaseDpbService.DistributedCopy] *)
Definition DistributedCopy {World} (self : DpbService World)
    (source destination : string) (properties : option pydict)
    : M World JobResult :=
  SubmitJob self
    {| jarfile := None;
       classname := Some "org.apache.hadoop.tools.DistCp";
       pyspark_file := None;
       query_file := None;
       job_poll_interval := None;
       job_stdout_file := None;
       job_arguments := Some [source; destination];
       job_files := None;
       job_jars := None;
       job_type := Some HADOOP_JOB_TYPE;
       properties := properties |}.

(** ** The unmanaged backends *)

(** The second half of [SubmitJob], from [start_time = ...] on, which both
    unmanaged classes share word for word: time the command on the leader,
    turn a transport error into a [JobSubmissionError], save the output when
    asked to. *)
Definition run_on_leader `{Platform World} (cmd_string : string)
    (job_stdout_file : option string) : M World JobResult :=
  (start_time <- (fun w => let (t, w') := datetime_now w in (Return t, w')) ;;
   out <- try_except (RobustRemoteCommand cmd_string) RemoteCommandError
            (fun e => raise (mk_exn JobSubmissionError "" (Some e))) ;;
   end_time <- (fun w => let (t, w') := datetime_now w in (Return t, w')) ;;
   _ <- (if truthy_str job_stdout_file then
           fun w => match write_file (default "" job_stdout_file) (fst out) w with
                    | (None, w') => (Return tt, w')
                    | (Some msg, w') => (Raise (mk_exn OSError msg None), w')
                    end
         else ret tt) ;;
   ret (JobResult_init (total_seconds (datetime_sub end_time start_time)) None))%py.

(** [UnmanagedDpbServiceYarnCluster.SubmitJob], up to [cmd_string]: the
    command line that is handed to the leader. *)
Definition Yarn_cmd_string `{Platform World} (a : SubmitJobArgs) : result string :=
  if negb (bool_decide (job_type a = Some HADOOP_JOB_TYPE)) then
    Raise (mk_exn NotImplementedError "" None)
  else
    let cmd_list := [HADOOP_CMD] in
    let cmd_list :=
      if truthy_str (jarfile a) then cmd_list ++ ["jar"; default "" (jarfile a)]
      else cmd_list in
    let cmd_list :=
      if truthy_str (classname a) then cmd_list ++ [default "" (classname a)]
      else cmd_list in
    result_bind (merged_properties (properties a)) (fun all_properties =>
    let cmd_list :=
      cmd_list ++ map (fun kv => "-D" +:+ format_kv (fst kv) (snd kv)) all_properties in
    let cmd_list :=
      if truthy_list (job_arguments a) then cmd_list ++ default [] (job_arguments a)
      else cmd_list in
    Return (join " " cmd_list)).

(** [UnmanagedDpbServiceYarnCluster.SubmitJob] *)
Definition Yarn_SubmitJob `{Platform World} (a : SubmitJobArgs)
    : M World JobResult :=
  (cmd_string <- lift (Yarn_cmd_string a) ;;
   run_on_leader cmd_string (job_stdout_file a))%py.

(** [assert x] for an optional string *)
Definition assert_str (o : option string) : result string :=
  if truthy_str o then Return (default "" o)
  else Raise (mk_exn AssertionError "" None).

(** [UnmanagedDpbSparkCluster.SubmitJob], up to [' '.join(cmd)]: the
    command line that is handed to the leader. *)
Definition Spark_cmd_string `{Platform World} (a : SubmitJobArgs) : result string :=
  if negb (bool_decide (job_type a ∈ [Some PYSPARK_JOB_TYPE; Some SPARK_JOB_TYPE])) then
    Raise (mk_exn NotImplementedError "" None)
  else
    let cmd := [SPARK_SUBMIT] in
    let cmd :=
      if truthy_str (classname a) then cmd ++ ["--class"; default "" (classname a)]
      else cmd in
    result_bind (merged_properties (properties a)) (fun all_properties =>
    let cmd :=
      fold_left (fun cmd kv => cmd ++ ["--conf"; format_kv (fst kv) (snd kv)])
                all_properties cmd in
    let cmd :=
      if truthy_list (job_files a) then
        ["--files"; join "," (default [] (job_files a))]
      else cmd in
    result_bind
      (if bool_decide (job_type a = Some SPARK_JOB_TYPE) then
         result_bind (assert_str (jarfile a)) (fun j => Return (cmd ++ [j]))
       else if bool_decide (job_type a = Some PYSPARK_JOB_TYPE) then
         result_bind (assert_str (pyspark_file a)) (fun p => Return (cmd ++ [p]))
       else Return cmd)
      (fun cmd =>
    let cmd :=
      if truthy_list (job_arguments a) then cmd ++ default [] (job_arguments a)
      else cmd in
    Return (join " " cmd))).

(** [UnmanagedDpbSparkCluster.SubmitJob] *)
Definition Spark_SubmitJob `{Platform World} (a : SubmitJobArgs)
    : M World JobResult :=
  (cmd_string <- lift (Spark_cmd_string a) ;;
   run_on_leader cmd_string (job_stdout_file a))%py.

(** [_GetCompletedJob] of both unmanaged classes *)
Definition Unmanaged_GetCompletedJob {World} (job_id : string)
    : M World (option JobResult) :=
  raise (mk_exn NotImplementedError
    "Submitting Job via SSH is a blocking command." None).

Definition UnmanagedDpbServiceYarnCluster `{Platform World} : DpbService World :=
  mkDpbService Yarn_SubmitJob Unmanaged_GetCompletedJob.

Definition UnmanagedDpbSparkCluster `{Platform World} : DpbService World :=
  mkDpbService Spark_SubmitJob Unmanaged_GetCompletedJob.

(** ** The polling protocol *)

(** Modelled from the spec: perfkitbenchmarker/vm_util.py is absent, so the
    decorator [vm_util.Retry] follows section 4.3.  The probe is invoked
    repeatedly, spaced by [poll_interval], until it returns a result or the
    elapsed wall-clock time exceeds [timeout], in which case the call fails
    with a timeout condition; an exception outside [retryable_exceptions] is
    a definitive failure and is not retried.  The jitter factor is zero
    ([fuzz=0] at the only call, in [_WaitForJob]), so the spacing is exactly
    [poll_interval].  [start] is the clock at the call; [fuel] bounds the
    number of attempts and [None] means that it ran out. *)
Fixpoint Retry_loop `{Platform World} {A : Type} (fuel : nat)
    (start timeout poll_interval : Z) (retryable_exceptions : list exn_class)
    (f : M World A) (w : World) : option (result A * World) :=
  match fuel with
  | O => None
  | S fuel' =>
      match f w with
      | (Return a, w1) => Some (Return a, w1)
      | (Raise e, w1) =>
          if matches e retryable_exceptions then
            if time_time w1 - start >? timeout then
              Some (Raise (mk_exn TimeoutError "" None), w1)
            else
              Retry_loop fuel' start timeout poll_interval retryable_exceptions f
                         (time_sleep poll_interval w1)
          else Some (Raise e, w1)
      end
  end.

(** Modelled from the spec: [vm_util.Retry(timeout, poll_interval, fuzz=0,
    retryable_exceptions)] applied to [f], section 4.3 (vm_util.py is
    absent). *)
Definition Retry `{Platform World} {A : Type} (fuel : nat)
    (timeout poll_interval : Z) (retryable_exceptions : list exn_class)
    (f : M World A) (w : World) : option (result A * World) :=
  Retry_loop fuel (time_time w) timeout poll_interval retryable_exceptions f w.

(** The local function [Poll] of [_WaitForJob] *)
Definition Poll {World} (self : DpbService World) (job_id : string)
    : M World JobResult :=
  (result <- _GetCompletedJob self job_id ;;
   match result with
   | None =>
       raise (mk_exn JobNotCompletedError ("Job " +:+ job_id +:+ " not complete.") None)
   | Some r => ret r
   end)%py.

(** [retryable_exceptions=(JobNotCompletedError,)] *)
Definition Poll_retryable_exceptions : list exn_class := [JobNotCompletedError].

(** [BaseDpbService._WaitForJob] *)
Definition _WaitForJob `{Platform World} (fuel : nat) (self : DpbService World)
    (job_id : string) (timeout poll_interval : Z) (w : World)
    : option (result JobResult * World) :=
  Retry fuel timeout poll_interval Poll_retryable_exceptions (Poll self job_id) w.

(** The world in which attempt number [k] of the polling starts (counting
    from 0), when the earlier attempts were all retried: every retry is the
    probe followed by a sleep of [poll_interval]. *)
Fixpoint attempt_start `{Platform World} (self : DpbService World)
    (job_id : string) (poll_interval : Z) (k : nat) (w : World) : World :=
  match k with
  | O => w
  | S k' =>
      attempt_start self job_id poll_interval k'
        (time_sleep poll_interval (snd (Poll self job_id w)))
  end.

(** The probe that starts in [w] finds the job not finished and leaves the
    world [w1]: [_GetCompletedJob] returns [None], or raises a
    [JobNotCompletedError] itself. *)
Definition not_finished {World} (self : DpbService World)
    (job_id : string) (w w1 : World) : Prop :=
  _GetCompletedJob self job_id w = (Return None, w1)
  \/ exists e, _GetCompletedJob self job_id w = (Raise e, w1)
               /\ isinstance e JobNotCompletedError = true.

(** An attempt that starts in [w] is retried: the job is not finished and
    the timeout has not elapsed since [start]. *)
Definition retried `{Platform World} (self : DpbService World)
    (job_id : string) (timeout start : Z) (w : World) : Prop :=
  exists w1, not_finished self job_id w w1
             /\ time_time w1 - start <= timeout.

(** The attempt that starts in [w] ends the call, with the outcome [o] and
    in the world [w'] that its probe leaves: the job has finished and its
    result is returned; or the probe raises an exception that is not a
    [JobNotCompletedError], which is raised; or the job is not finished and
    more than [timeout] has elapsed since [start], and the timeout error is
    raised. *)
Definition ends_call `{Platform World} (self : DpbService World)
    (job_id : string) (timeout start : Z) (w : World)
    (o : result JobResult) (w' : World) : Prop :=
  (exists r, _GetCompletedJob self job_id w = (Return (Some r), w')
             /\ o = Return r)
  \/ (exists e, _GetCompletedJob self job_id w = (Raise e, w')
                /\ isinstance e JobNotCompletedError = false
                /\ o = Raise e)
  \/ (not_finished self job_id w w'
      /\ timeout < time_time w' - start
      /\ o = Raise (mk_exn TimeoutError "" None)).

(** ** The resource lifecycle *)

Inductive lifecycle_state : Type :=
  | Uninitialized
  | Creating
  | Created
  | CreateFailed
  | Deleted.

(** Modelled from the spec: perfkitbenchmarker/resource.py is absent; a
    resource carries its [userManaged] flag and its lifecycle state
    (section 3), and is constructed in state Uninitialized. *)
Record BaseResource : Type := mkBaseResource {
  user_managed : bool;
  state : lifecycle_state
}.

Definition BaseResource_init (user_managed : bool) : BaseResource :=
  mkBaseResource user_managed Uninitialized.

(** The hooks a backend supplies (section 6). *)
Record Hooks (World : Type) : Type := mkHooks {
  _CreateDependencies : M World unit;
  _Create : M World unit;
  _Delete : M World unit;
  _DeleteDependencies : M World unit
}.
Arguments _CreateDependencies {World} _ _.
Arguments _Create {World} _ _.
Arguments _Delete {World} _ _.
Arguments _DeleteDependencies {World} _ _.
Arguments mkHooks {World} _ _ _ _.

Definition set_state (r : BaseResource) (s : lifecycle_state) : BaseResource :=
  mkBaseResource (user_managed r) s.

(** Modelled from the spec: [BaseResource.Create] of the absent
    resource.py, section 4.1.  If [userManaged], it returns success
    immediately without side effects; otherwise it provisions the
    dependencies, invokes the creation hook once, and on a failure of either
    leaves the resource in CreateFailed and surfaces the error. *)
Definition Create {World} (hooks : Hooks World) (r : BaseResource) (w : World)
    : result unit * BaseResource * World :=
  if user_managed r then (Return tt, r, w)
  else
    match _CreateDependencies hooks w with
    | (Raise e, w1) => (Raise e, set_state r CreateFailed, w1)
    | (Return _, w1) =>
        match _Create hooks w1 with
        | (Raise e, w2) => (Raise e, set_state r CreateFailed, w2)
        | (Return _, w2) => (Return tt, set_state r Created, w2)
        end
    end.

(** Modelled from the spec: [BaseResource.Delete] of the absent
    resource.py, section 4.1.  If [userManaged], this is a no-op; otherwise
    it invokes the deletion hook, then removes the dependency resources, and
    the resource ends in Deleted; a hook failure is surfaced to the caller
    (section 7 (e)). *)
Definition Delete {World} (hooks : Hooks World) (r : BaseResource) (w : World)
    : result unit * BaseResource * World :=
  if user_managed r then (Return tt, r, w)
  else
    match _Delete hooks w with
    | (Raise e, w1) => (Raise e, r, w1)
    | (Return _, w1) =>
        match _DeleteDependencies hooks w1 with
        | (Raise e, w2) => (Raise e, r, w2)
        | (Return _, w2) => (Return tt, set_state r Deleted, w2)
        end
    end.

(** The attributes of the service spec that [__init__] reads. *)
Record DpbServiceSpec : Type := mkDpbServiceSpec {
  static_dpb_service_instance : option string;
  version : option string
}.

(** The attributes of a [BaseDpbService] object. *)
Record BaseDpbService : Type := mkBaseDpbService {
  resource : BaseResource;
  spec : DpbServiceSpec;
  dpb_hdfs_type : option string;
  cluster_id : string;
  bucket : string;
  dpb_service_zone : option string;
  dpb_version : option string;
  dpb_service_type : string;
  storage_service : option unit
}.

(** [BaseDpbService.__init__] *)
Definition BaseDpbService_init `{Platform World}
    (dpb_service_spec : DpbServiceSpec) : BaseDpbService :=
  let is_user_managed :=
    negb (bool_decide (static_dpb_service_instance dpb_service_spec = None)) in
  {| resource := BaseResource_init is_user_managed;
     spec := dpb_service_spec;
     dpb_hdfs_type := None;
     cluster_id :=
       if truthy_str (static_dpb_service_instance dpb_service_spec) then
         default "" (static_dpb_service_instance dpb_service_spec)
       else "pkb-" +:+ FLAGS_run_uri;
     bucket := "pkb-" +:+ FLAGS_run_uri;
     dpb_service_zone := FLAGS_dpb_service_zone;
     dpb_version := version dpb_service_spec;
     dpb_service_type := "unknown";
     storage_service := None |}.

(** ** The concurrent runner *)

(** Modelled from the spec: [vm_util.RunThreaded] of the absent vm_util.py,
    section 4.4.  Every target gets its own invocation; the invocations
    complete in an arbitrary order, given here by the list [completion] of
    target indices, and each one stores its outcome in the slot of its
    target.  When all have completed, the outcomes are read in slot order:
    the results if every invocation returned, one representative failure
    (here the first in input order) otherwise.  [None] means that some
    invocation never completed. *)
Definition complete {T R : Type} (f : T -> result R) (targets : list T)
    (slots : list (option (result R))) (i : nat) : list (option (result R)) :=
  match targets !! i with
  | Some t => <[i := Some (f t)]> slots
  | None => slots
  end.

Fixpoint all_completed {A : Type} (slots : list (option A)) : option (list A) :=
  match slots with
  | [] => Some []
  | None :: _ => None
  | Some a :: r =>
      match all_completed r with
      | Some l => Some (a :: l)
      | None => None
      end
  end.

Fixpoint join_results {R : Type} (outcomes : list (result R)) : result (list R) :=
  match outcomes with
  | [] => Return []
  | Raise e :: _ => Raise e
  | Return x :: r =>
      match join_results r with
      | Return l => Return (x :: l)
      | Raise e => Raise e
      end
  end.

Definition RunThreaded {T R : Type} (completion : list nat)
    (f : T -> result R) (targets : list T) : option (result (list R)) :=
  let slots :=
    fold_left (complete f targets) completion (replicate (length targets) None) in
  match all_completed slots with
  | Some outcomes => Some (join_results outcomes)
  | None => None
  end.

(** ** A concrete world

    A small instance of the collaborators, on which the definitions above
    run: the clock counts microseconds, the leader records the commands it
    receives, and the control plane counts the probes. *)

Module Scenario.

Record World : Type := mkWorld {
  clock : Z;
  sent : list string;
  files : list (string * string);
  probes : nat
}.

Definition w0 : World := mkWorld 0 [] [] 0%nat.

Definition now (w : World) : datetime * World := (mk_datetime (clock w), w).

(** A leader that runs every command in three seconds. *)
Definition transport_ok (cmd : string) : M World (string * string) :=
  fun w => (Return ("ok", ""),
            mkWorld (clock w + 3000000) (sent w ++ [cmd]) (files w) (probes w)).

(** A leader that cannot be reached. *)
Definition transport_down (cmd : string) : M World (string * string) :=
  fun w => (Raise (mk_exn RemoteCommandError "ssh: connection refused" None),
            mkWorld (clock w + 1000000) (sent w ++ [cmd]) (files w) (probes w)).

Definition save (path data : string) (w : World) : option string * World :=
  (None, mkWorld (clock w) (sent w) ((path, data) :: files w) (probes w)).

Definition sleep (d : Z) (w : World) : World :=
  mkWorld (clock w + d) (sent w) (files w) (probes w).

Definition platform (flags : list string)
    (transport : string -> M World (string * string)) : Platform World :=
  {| FLAGS_dpb_job_properties := flags;
     FLAGS_run_uri := "4f2a";
     FLAGS_dpb_service_zone := Some "us-central1-c";
     HADOOP_CMD := "/opt/pkb/hadoop/bin/hadoop";
     SPARK_SUBMIT := "/opt/pkb/spark/bin/spark-submit";
     datetime_now := now;
     RobustRemoteCommand := transport;
     write_file := save;
     time_time := clock;
     time_sleep := sleep |}.

(** A polled backend whose control plane answers the [n]-th probe with
    [script n], a tenth of a second after it was asked. *)
Definition probe (script : nat -> result (option JobResult)) (job_id : string)
    : M World (option JobResult) :=
  fun w => (script (probes w),
            mkWorld (clock w + 100000) (sent w) (files w) (S (probes w))).

Definition polled (script : nat -> result (option JobResult)) : DpbService World :=
  mkDpbService (fun _ => raise (mk_exn NotImplementedError "" None)) (probe script).

(** The job never finishes. *)
Definition never_done (n : nat) : result (option JobResult) := Return None.

(** The job is pending twice, then the backend reports its failure. *)
Definition fails_on_third (n : nat) : result (option JobResult) :=
  if (n <? 2)%nat then Return None
  else Raise (mk_exn JobSubmissionError "job failed" None).

(** The job is pending twice, then it has finished. *)
Definition done_on_third (n : nat) : result (option JobResult) :=
  if (n <? 2)%nat then Return None
  else Return (Some (JobResult_init 42 (Some 7%Q))).

(** The job is pending at the first twenty probes, then it has
    finished. *)
Definition done_after_twenty (n : nat) : result (option JobResult) :=
  if (n <? 20)%nat then Return None
  else Return (Some (JobResult_init 42 (Some 7%Q))).

(** A hook that leaves a trace: it sends a command to the leader. *)
Definition traced (name : string) : M World unit :=
  fun w => (Return tt, mkWorld (clock w) (sent w ++ [name]) (files w) (probes w)).

Definition hooks : Hooks World :=
  mkHooks (traced "_CreateDependencies") (traced "_Create")
          (traced "_Delete") (traced "_DeleteDependencies").

End Scenario.

(** ** More of BaseDpbService: metadata and execution jars *)

(** The values that occur in metadata dictionaries. *)
Inductive pyval : Type :=
  | VNone
  | VBool (b : bool)
  | VInt (n : Z)
  | VStr (s : string)
  | VList (l : list string).

Definition VOpt (o : option string) : pyval :=
  match o with
  | Some s => VStr s
  | None => VNone
  end.

(** [x or d] for an optional string *)
Definition str_or (o : option string) (d : string) : string :=
  if truthy_str o then default "" o else d.

(** A dictionary with values of any type, in insertion order. *)
Fixpoint lookup_key {V : Type} (k : string) (d : list (string * V)) : option V :=
  match d with
  | [] => None
  | (k', v) :: r => if String.eqb k k' then Some v else lookup_key k r
  end.

(** [BaseDpbService.GetMetadata].  [machine_type] and [worker_count] are
    [self.spec.worker_group.vm_spec.machine_type] and
    [self.spec.worker_count]; [FLAGS_dpb_cluster_properties] is the flag of
    that name. *)
Definition GetMetadata `{Platform World} (self : BaseDpbService)
    (machine_type : pyval) (worker_count : pyval)
    (FLAGS_dpb_cluster_properties : list string)
    : result (list (string * pyval)) :=
  let pretty_version := str_or (dpb_version self) "default" in
  result_bind GetJobProperties (fun job_properties =>
  Return
    [("dpb_service", VStr (dpb_service_type self));
     ("dpb_version", VStr pretty_version);
     ("dpb_service_version",
        VStr (dpb_service_type self +:+ "_" +:+ pretty_version));
     ("dpb_cluster_id", VStr (cluster_id self));
     ("dpb_cluster_shape", machine_type);
     ("dpb_cluster_size", worker_count);
     ("dpb_hdfs_type", VOpt (dpb_hdfs_type self));
     ("dpb_service_zone", VOpt (dpb_service_zone self));
     ("dpb_job_properties",
        VStr (join "," (map (fun kv => format_kv (fst kv) (snd kv)) job_properties)));
     ("dpb_cluster_properties", VStr (join "," FLAGS_dpb_cluster_properties))]).

(** The outcome of a dictionary subscript [d[k]], which raises [KeyError]
    on a missing key, inside [GetExecutionJar]. *)
Inductive jar_outcome : Type :=
  | Jar (path : string)
  | JarNotImplementedError
  | JarKeyError (key : string).

Definition JOB_JARS_t : Type := list (string * list (string * string)).

(** [BaseDpbService.JOB_JARS] and its overrides in the unmanaged classes;
    [SPARK_DIR] is [spark.SPARK_DIR]. *)
Definition BaseDpbService_JOB_JARS : JOB_JARS_t :=
  [(SPARK_JOB_TYPE,
    [("examples", "file:///usr/lib/spark/examples/jars/spark-examples.jar")])].

Definition Yarn_JOB_JARS : JOB_JARS_t :=
  [("hadoop",
    [("terasort",
      "/opt/pkb/hadoop/share/hadoop/mapreduce/hadoop-mapreduce-examples-*.jar")])].

Definition Spark_JOB_JARS (SPARK_DIR : string) : JOB_JARS_t :=
  [("spark", [("examples", SPARK_DIR +:+ "/examples/jars/spark-examples_*.jar")])].

(** [k in d] *)
Definition has_key {V : Type} (k : string) (d : list (string * V)) : bool :=
  match lookup_key k d with
  | Some _ => true
  | None => false
  end.

(** [BaseDpbService.GetExecutionJar], for the [JOB_JARS] of the class of
    [self]. *)
Definition GetExecutionJar (JOB_JARS : JOB_JARS_t) (job_category job_type : string)
    : jar_outcome :=
  if negb (has_key job_category JOB_JARS)
     || negb (match lookup_key job_category JOB_JARS with
              | Some jars => has_key job_type jars
              | None => false   (* not evaluated: [or] has returned *)
              end)
  then JarNotImplementedError
  else
    match lookup_key job_category JOB_JARS with
    | None => JarKeyError job_category
    | Some jars =>
        match lookup_key job_type jars with
        | None => JarKeyError job_type
        | Some path => Jar path
        end
    end.

(** The number of occurrences of a character. *)
Fixpoint count_char (c : ascii) (s : string) : nat :=
  match s with
  | EmptyString => O
  | String c' r => (if Ascii.eqb c' c then 1 else 0) + count_char c r
  end.

(** * linux_packages/awscli.py *)

(** The methods of a virtual machine that the package modules call. *)
Class VirtualMachine (World : Type) : Type := {
  (* vm.RemoteCommand(cmd) *)
  RemoteCommand : string -> M World (string * string);
  (* vm.InstallPackages(packages) *)
  InstallPackages : string -> M World unit
}.

Module AwsCli.

Definition _VERSION : string := "1.18.107".

(** [awscli.Install] *)
Definition Install `{VirtualMachine World} : M World unit :=
  (x <- InstallPackages "python3-pip" ;;
   y <- RemoteCommand
          ("sudo pip3 install 'awscli==" +:+ _VERSION +:+ "' --force-reinstall") ;;
   ret tt)%py.

(** [awscli.YumInstall] *)
Definition YumInstall `{VirtualMachine World} : M World unit :=
  try_except
    (x <- RemoteCommand "yum list installed awscli" ;; ret tt)%py
    RemoteCommandError
    (fun e => Install).

(** [awscli.Uninstall] *)
Definition Uninstall `{VirtualMachine World} : M World unit :=
  (x <- RemoteCommand "/usr/bin/yes | sudo pip3 uninstall awscli" ;; ret tt)%py.

End AwsCli.

(** * scripts/gcsfuse_scripts/read.py *)

Module ReadScript.

(** [s.replace(old, new)] for a non-empty [old]: the occurrences of [old]
    are replaced from left to right, without overlap.  [skip] counts the
    characters of a replaced occurrence that are still to be passed over. *)
Fixpoint replace_from (skip : nat) (old new s : string) : string :=
  match s with
  | EmptyString => EmptyString
  | String c r =>
      match skip with
      | S k => replace_from k old new r
      | O =>
          if String.prefix old s then
            new +:+ replace_from (String.length old - 1) old new r
          else String c (replace_from 0 old new r)
      end
  end.

Definition replace (old new s : string) : string := replace_from 0 old new s.

(** [old in s] *)
Fixpoint contains (old s : string) : bool :=
  String.prefix old s
  || match s with
     | EmptyString => false
     | String _ r => contains old r
     end.

(** [class ObjectReader] *)
Record ObjectReader : Type := mkObjectReader {
  object_name : string;
  mountpoint : option string
}.

(** What [Open] opens: a file of the local file system, or an object
    through [tf.io.gfile.GFile]. *)
Inductive opened : Type :=
  | LocalFile (file_name : string)
  | GFile (name : string).

(** [ObjectReader.Open] *)
Definition Open (self : ObjectReader) : opened :=
  if truthy_str (mountpoint self) then
    LocalFile (replace "gs://" (default "" (mountpoint self)) (object_name self))
  else GFile (object_name self).

(** [2 * 1024 * 1024] *)
Definition CHUNK : nat := 2 * 1024 * 1024.

(** The loop of [ObjectReader.ReadFull] on an open file whose unread
    contents are [f]: [f.read(n)] returns the next [n] bytes, or what is left
    of them.  [fuel] bounds the number of reads. *)
Fixpoint ReadFull_loop (chunk fuel : nat) (f : list Byte.byte) (bytes_read : nat)
    : option nat :=
  match fuel with
  | O => None
  | S fuel' =>
      let data := take chunk f in
      let f' := drop chunk f in
      match data with
      | _ :: _ => ReadFull_loop chunk fuel' f' (bytes_read + length data)
      | [] => Some bytes_read
      end
  end.

(** [ObjectReader.ReadFull], given the contents of the file that [Open]
    returns. *)
Definition ReadFull (fuel : nat) (contents : list Byte.byte) : option nat :=
  ReadFull_loop CHUNK fuel contents 0.

(** [ReadBenchmark.__init__]: the readers, from the text on standard input
    and [FLAGS.mountpoint]. *)
Definition readers_of (stdin : string) (FLAGS_mountpoint : option string)
    : list ObjectReader :=
  map (fun o => mkObjectReader o FLAGS_mountpoint)
      (List.filter (fun o => negb (String.eqb o "")) (split_on "010" stdin)).

End ReadScript.

(** * linux_packages/gcsfuse.py and linux_benchmarks/gcsfuse_benchmark.py *)

Module Gcsfuse.

(** [gcsfuse.MNT] *)
Definition MNT : string := "/gcs".

(** The mount point that [_ReadThroughputTestViaGcsfuse] passes to the
    script. *)
Definition BENCHMARK_MOUNTPOINT : string := "/gcs/".

End Gcsfuse.

(** * relational_db.py *)

Module Db.

(** The exceptions of the module: its own classes, the built-ins it
    raises or runs into, and whatever a collaborator raises. *)
Inductive error : Type :=
  | UnsupportedError (msg : string)
  | RelationalDbPropertyNotSet (msg : string)
  | PyException (msg : string)
  | PyNotImplementedError (msg : string)
  | PyTypeError (msg : string)
  | PyValueError (msg : string)
  | PyKeyError (key : string)
  | PyIndexError (msg : string)
  | PyAttributeError (msg : string)
  | Raised (e : exn).

Inductive outcome (A : Type) : Type :=
  | Ok (a : A)
  | Err (e : error).
Arguments Ok {A} a.
Arguments Err {A} e.

Definition DM (World A : Type) : Type := World -> outcome A * World.

Definition dret {World A} (a : A) : DM World A := fun w => (Ok a, w).

Definition draise {World A} (e : error) : DM World A := fun w => (Err e, w).

Definition dlift {World A} (o : outcome A) : DM World A := fun w => (o, w).

Definition dbind {World A B} (m : DM World A) (k : A -> DM World B) : DM World B :=
  fun w => match m w with
           | (Ok a, w') => k a w'
           | (Err e, w') => (Err e, w')
           end.

Notation "x <~ m ;; k" := (dbind m (fun x => k))
  (at level 100, m at next level, right associativity) : py_scope.

(** [fmt % args] for a format with [%s] and [%%] conversions; a single
    argument that is not a tuple counts as a tuple of one. *)
Fixpoint percent (fmt : string) (args : list string) : outcome string :=
  match fmt with
  | EmptyString =>
      match args with
      | [] => Ok EmptyString
      | _ :: _ =>
          Err (PyTypeError "not all arguments converted during string formatting")
      end
  | String c rest =>
      if Ascii.eqb c "%" then
        match rest with
        | EmptyString => Err (PyValueError "incomplete format")
        | String d rest' =>
            if Ascii.eqb d "s" then
              match args with
              | [] => Err (PyTypeError "not enough arguments for format string")
              | a :: args' =>
                  match percent rest' args' with
                  | Ok r => Ok (a +:+ r)
                  | Err e => Err e
                  end
              end
            else if Ascii.eqb d "%" then
              match percent rest' args with
              | Ok r => Ok (String "%" r)
              | Err e => Err e
              end
            else Err (PyValueError "unsupported format character")
        end
      else
        match percent rest args with
        | Ok r => Ok (String c r)
        | Err e => Err e
        end
  end.

(** [str(x)] for an optional string *)
Definition str_of (o : option string) : string := default "None" o.

(** [d[k]] and [l[0]] *)
Definition subscript {V : Type} (d : list (string * V)) (k : string) : outcome V :=
  match lookup_key k d with
  | Some v => Ok v
  | None => Err (PyKeyError k)
  end.

Definition first {A : Type} (l : list A) : outcome A :=
  match l with
  | x :: _ => Ok x
  | [] => Err (PyIndexError "list index out of range")
  end.

(** What the module reads of a virtual machine object. *)
Record VM : Type := mkVM {
  vm_name : string;
  NumCpusForBenchmark : Z
}.

(** Flags, and the methods of virtual machines and of [vm_util] that have
    effects or live in absent modules. *)
Class Platform (World : Type) : Type := {
  FLAGS_use_managed_db : bool;
  FLAGS_innodb_buffer_pool_size : option Z;
  FLAGS_innodb_log_file_size : Z;
  FLAGS_db_flags : list string;
  (* vm.RemoteCommand(cmd), vm.Install(package) *)
  RemoteCommand : VM -> string -> DM World (string * string);
  Install : VM -> string -> DM World unit;
  (* vm.GetServiceName(name), vm.GetPathToConfig(name) *)
  GetServiceName : VM -> string -> string;
  GetPathToConfig : VM -> string -> string;
  (* vm_util.IssueCommand(cmd, raise_on_failure=False) *)
  IssueCommand : list string -> DM World (string * string * Z)
}.

Definition MYSQL : string := "mysql".
Definition POSTGRES : string := "postgres".

(** [VmsToBoot] *)
Definition VmsToBoot `{Platform World} {V : Type} (vm_groups : list (string * V))
    : list (string * V) :=
  List.filter
    (fun item =>
       String.eqb (fst item) "clients" || String.eqb (fst item) "default"
       || (negb FLAGS_use_managed_db && String.eqb (fst item) "servers"))
    vm_groups.

(** The attributes of the spec that the methods below read or write. *)
Record RelationalDbSpec : Type := mkSpec {
  engine : string;
  engine_version : string;
  high_availability : bool;
  database_username : option string;
  database_password : option string
}.

(** A [BaseRelationalDb] object.  The attributes behind the properties
    ([_endpoint], [_port], [_client_vm], [_server_vm]) and the two innodb
    attributes exist only once they were assigned: [None] stands for an
    attribute that the object does not have. *)
Record BaseRelationalDb : Type := mkDb {
  spec : RelationalDbSpec;
  is_managed_db : bool;
  _endpoint : option string;
  _port : option Z;
  _client_vm : option VM;
  _server_vm : option VM;
  innodb_buffer_pool_size : option (option Z);
  innodb_log_file_size : option Z
}.

(** [BaseRelationalDb.__init__] *)
Definition BaseRelationalDb_init `{Platform World}
    (relational_db_spec : RelationalDbSpec) : outcome BaseRelationalDb :=
  if negb FLAGS_use_managed_db then
    if high_availability relational_db_spec then
      Err (UnsupportedError "High availability is unsupported for unmanaged databases.")
    else
      Ok {| spec := {| engine := engine relational_db_spec;
                       engine_version := engine_version relational_db_spec;
                       high_availability := high_availability relational_db_spec;
                       database_username := Some "root";
                       database_password := Some "perfkitbenchmarker" |};
            is_managed_db := false;
            _endpoint := Some "";
            _port := None;
            _client_vm := None;
            _server_vm := None;
            innodb_buffer_pool_size := Some FLAGS_innodb_buffer_pool_size;
            innodb_log_file_size := Some FLAGS_innodb_log_file_size |}
  else
    Ok {| spec := relational_db_spec;
          is_managed_db := true;
          _endpoint := None;
          _port := None;
          _client_vm := None;
          _server_vm := None;
          innodb_buffer_pool_size := None;
          innodb_log_file_size := None |}.

(** The properties [client_vm], [server_vm] and [endpoint] *)
Definition client_vm (self : BaseRelationalDb) : outcome VM :=
  match _client_vm self with
  | Some vm => Ok vm
  | None => Err (RelationalDbPropertyNotSet "client_vm is not set")
  end.

Definition server_vm (self : BaseRelationalDb) : outcome VM :=
  match _server_vm self with
  | Some vm => Ok vm
  | None => Err (RelationalDbPropertyNotSet "server_vm is not set")
  end.

Definition endpoint (self : BaseRelationalDb) : outcome string :=
  match _endpoint self with
  | Some e => Ok e
  | None => Err (RelationalDbPropertyNotSet "endpoint not set")
  end.

Definition set_client_vm (self : BaseRelationalDb) (vm : VM) : BaseRelationalDb :=
  mkDb (spec self) (is_managed_db self) (_endpoint self) (_port self)
       (Some vm) (_server_vm self)
       (innodb_buffer_pool_size self) (innodb_log_file_size self).

Definition set_server_vm (self : BaseRelationalDb) (vm : VM) : BaseRelationalDb :=
  mkDb (spec self) (is_managed_db self) (_endpoint self) (_port self)
       (_client_vm self) (Some vm)
       (innodb_buffer_pool_size self) (innodb_log_file_size self).

Definition set_endpoint (self : BaseRelationalDb) (e : string) : BaseRelationalDb :=
  mkDb (spec self) (is_managed_db self) (Some e) (_port self)
       (_client_vm self) (_server_vm self)
       (innodb_buffer_pool_size self) (innodb_log_file_size self).

Definition set_innodb_buffer_pool_size (self : BaseRelationalDb) (v : option Z)
    : BaseRelationalDb :=
  mkDb (spec self) (is_managed_db self) (_endpoint self) (_port self)
       (_client_vm self) (_server_vm self)
       (Some v) (innodb_log_file_size self).

(** Truth value of an optional integer: [None] and 0 are false. *)
Definition truthy_int (o : option Z) : bool :=
  match o with
  | Some n => negb (n =? 0)
  | None => false
  end.

(** [BaseRelationalDb.SetVms]: the outcome and the object as the call
    leaves it. *)
Definition SetVms (self : BaseRelationalDb) (vm_groups : list (string * list VM))
    : outcome unit * BaseRelationalDb :=
  match subscript vm_groups
          (if has_key "clients" vm_groups then "clients" else "default") with
  | Err e => (Err e, self)
  | Ok group =>
      match first group with
      | Err e => (Err e, self)
      | Ok vm =>
          let self := set_client_vm self vm in
          if negb (is_managed_db self) && has_key "servers" vm_groups then
            match subscript vm_groups "servers" with
            | Err e => (Err e, self)
            | Ok servers =>
                match first servers with
                | Err e => (Err e, self)
                | Ok server =>
                    let self := set_server_vm self server in
                    match innodb_buffer_pool_size self with
                    | None =>
                        (Err (PyAttributeError "innodb_buffer_pool_size"), self)
                    | Some size =>
                        if negb (truthy_int size) then
                          (Ok tt,
                           set_innodb_buffer_pool_size self
                             (Some (NumCpusForBenchmark server)))
                        else (Ok tt, self)
                    end
                end
            end
          else (Ok tt, self)
      end
  end.

(** [BaseRelationalDb.MakeMysqlConnectionString] *)
Definition MakeMysqlConnectionString (self : BaseRelationalDb)
    (use_localhost : bool) : outcome string :=
  match (if negb use_localhost then endpoint self else Ok "localhost") with
  | Err e => Err e
  | Ok host =>
      Ok ("-h " +:+ host
          +:+ (if negb (is_managed_db self) then " -P 3306" else "")
          +:+ " -u " +:+ str_of (database_username (spec self))
          +:+ " -p" +:+ str_of (database_password (spec self)))
  end.

(** [BaseRelationalDb.MakeSysbenchConnectionString] *)
Definition MakeSysbenchConnectionString (self : BaseRelationalDb) : outcome string :=
  match endpoint self with
  | Err e => Err e
  | Ok host =>
      Ok ("--mysql-host=" +:+ host
          +:+ (if negb (is_managed_db self) then " --mysql-port=3306" else "")
          +:+ " --mysql-user=" +:+ str_of (database_username (spec self))
          +:+ " --mysql-password=" +:+ String "034" (str_of (database_password (spec self)))
          +:+ String "034" " ")
  end.

(** The choice of the MySQL server package in [_IsReadyUnmanaged] and
    [_InstallMySQLServer] (the same chain in both). *)
Definition server_mysql_name (version : string) : outcome string :=
  if String.eqb version "5.6" || String.prefix "5.6." version then Ok "mysql56"
  else if String.eqb version "5.7" || String.prefix "5.7." version then Ok "mysql57"
  else if String.eqb version "8.0" || String.prefix "8.0." version then Ok "mysql80"
  else Err (PyException ("Invalid database engine version: " +:+ version
                         +:+ ". Only 5.6 and 5.7 and 8.0 are supported.")).

(** The choice of the MySQL client package in [_InstallMySQLClient]. *)
Definition client_mysql_name (version : string) : outcome string :=
  if String.eqb version "5.6" || String.prefix "5.6." version then Ok "mysqlclient56"
  else if String.eqb version "5.7" || String.prefix "5.7" version
          || String.eqb version "8.0" || String.prefix "8.0" version
       then Ok "mysqlclient"
  else Err (PyException ("Invalid database engine version: " +:+ version
                         +:+ ". Only 5.6, 5.7 and 8.0 are supported.")).

(** [BaseRelationalDb._IsReadyUnmanaged]; the value is that of
    [stdout and not stderr]. *)
Definition _IsReadyUnmanaged `{Platform World} (self : BaseRelationalDb)
    : DM World pyval :=
  if is_managed_db self then
    draise (PyException
      "Checking state of unmanaged database when the database is managed.")
  else
    (mysql_name <~ dlift (server_mysql_name (engine_version (spec self))) ;;
     vm <~ dlift (server_vm self) ;;
     out <~ RemoteCommand vm
              ("sudo service " +:+ GetServiceName vm mysql_name +:+ " status") ;;
     dret (if String.eqb (fst out) "" then VStr (fst out)
           else VBool (String.eqb (snd out) "")))%py.

Definition TAB : string := String "009" "".

(** [BaseRelationalDb._InstallMySQLClient] *)
Definition _InstallMySQLClient `{Platform World} (self : BaseRelationalDb)
    : DM World unit :=
  (mysql_name <~ dlift (client_mysql_name (engine_version (spec self))) ;;
   vm <~ dlift (client_vm self) ;;
   x <~ Install vm mysql_name ;;
   vm <~ dlift (client_vm self) ;;
   y <~ RemoteCommand vm
          ("sudo sed -i " +:+ String "034" "s/max_allowed_packet" +:+ TAB
           +:+ "= 16M/max_allowed_packet" +:+ TAB +:+ "= 1024M/g"
           +:+ String "034" " " +:+ GetPathToConfig vm mysql_name) ;;
   vm <~ dlift (client_vm self) ;;
   z <~ RemoteCommand vm ("sudo cat " +:+ GetPathToConfig vm mysql_name) ;;
   dret tt)%py.

(** The loop of [_ApplyMySqlFlags].  The right-hand side of the assignment
    to [cmd] is the tuple of [fmt % self.MakeMysqlConnectionString()] and
    [flag]: the operator [%] binds tighter than the comma. *)
Fixpoint apply_mysql_flags `{Platform World} (self : BaseRelationalDb)
    (flags : list string) : DM World unit :=
  match flags with
  | [] => dret tt
  | flag :: rest =>
      (conn <~ dlift (MakeMysqlConnectionString self false) ;;
       formatted <~ dlift (percent "mysql %s -e 'SET %s;'" [conn]) ;;
       res <~ IssueCommand [formatted; flag] ;;
       if negb (String.eqb (snd (fst res)) "") then
         draise (PyException ("Invalid MySQL flags: " +:+ snd (fst res)))
       else apply_mysql_flags self rest)%py
  end.

(** [BaseRelationalDb._ApplyMySqlFlags] *)
Definition _ApplyMySqlFlags `{Platform World} (self : BaseRelationalDb)
    : DM World unit :=
  match FLAGS_db_flags with
  | _ :: _ => apply_mysql_flags self FLAGS_db_flags
  | [] => dret tt
  end.

(** [BaseRelationalDb._ApplyManagedDbFlags]; [class_name] is
    [type(self).__name__]. *)
Definition _ApplyManagedDbFlags {World} (class_name : string) : DM World unit :=
  draise (PyNotImplementedError
            ("Managed Db flags is not supported for " +:+ class_name)).

(** [BaseRelationalDb._ApplyDbFlags] *)
Definition _ApplyDbFlags `{Platform World} (self : BaseRelationalDb)
    (class_name : string) : DM World unit :=
  match FLAGS_db_flags with
  | _ :: _ =>
      if is_managed_db self then _ApplyManagedDbFlags class_name
      else if String.eqb (engine (spec self)) MYSQL then _ApplyMySqlFlags self
      else draise (PyNotImplementedError
                     ("Flags is not supported on " +:+ engine (spec self)))
  | [] => dret tt
  end.

(** [BaseRelationalDb._PostCreate] *)
Definition _PostCreate `{Platform World} (self : BaseRelationalDb)
    (class_name : string) : DM World unit :=
  _ApplyDbFlags self class_name.

(** [string.ascii_lowercase], [string.ascii_uppercase], [string.digits] *)
Definition ascii_lowercase : string := "abcdefghijklmnopqrstuvwxyz".
Definition ascii_uppercase : string := "ABCDEFGHIJKLMNOPQRSTUVWXYZ".
Definition digits : string := "0123456789".

(** [c in s] for a character *)
Fixpoint char_in (c : ascii) (s : string) : bool :=
  match s with
  | EmptyString => false
  | String c' r => Ascii.eqb c c' || char_in c r
  end.

(** [random.choice(seq)] picks the element at a random index below the
    length; [draw] is the random number behind it. *)
Definition choice (seq : string) (draw : nat) : ascii :=
  match String.get (draw mod String.length seq) seq with
  | Some c => c
  | None => "000"%char
  end.

(** [str(u)] for a UUID [u] whose 32 hexadecimal digits are [hex]: the
    groups of 8, 4, 4, 4 and 12 digits, with hyphens. *)
Definition uuid_str (hex : string) : string :=
  String.substring 0 8 hex +:+ "-" +:+ String.substring 8 4 hex +:+ "-"
  +:+ String.substring 12 4 hex +:+ "-" +:+ String.substring 16 4 hex +:+ "-"
  +:+ String.substring 20 12 hex.

(** [GenerateRandomDbPassword], given the three random draws and the
    digits of the random UUID. *)
Definition GenerateRandomDbPassword (draw1 draw2 draw3 : nat) (uuid_hex : string)
    : string :=
  let prefix := [choice ascii_lowercase draw1;
                 choice ascii_uppercase draw2;
                 choice digits draw3] in
  string_of_list_ascii prefix +:+ String.substring 0 10 (uuid_str uuid_hex).

End Db.

(** Truth value of a Python value. *)
Definition truthy_val (v : pyval) : bool :=
  match v with
  | VNone => false
  | VBool b => b
  | VInt n => negb (n =? 0)
  | VStr s => negb (String.eqb s "")
  | VList l => match l with [] => false | _ :: _ => true end
  end.

(** A concrete database platform: the world is the list of the commands
    that were run, each with the machine it ran on. *)
Module DbScenario.

Definition World : Type := list string.

Definition run (vm : Db.VM) (cmd : string) : Db.DM World (string * string) :=
  fun w => (Db.Ok ("mysql.service active", ""), w ++ [Db.vm_name vm +:+ "$ " +:+ cmd]).

Definition install (vm : Db.VM) (package : string) : Db.DM World unit :=
  fun w => (Db.Ok tt, w ++ [Db.vm_name vm +:+ "$ install " +:+ package]).

Definition issue (cmd : list string) : Db.DM World (string * string * Z) :=
  fun w => (Db.Ok ("", "", 0), w ++ [join " " cmd]).

Definition platform (use_managed_db : bool) (db_flags : list string)
    : Db.Platform World :=
  {| Db.FLAGS_use_managed_db := use_managed_db;
     Db.FLAGS_innodb_buffer_pool_size := None;
     Db.FLAGS_innodb_log_file_size := 1000;
     Db.FLAGS_db_flags := db_flags;
     Db.RemoteCommand := run;
     Db.Install := install;
     Db.GetServiceName := fun vm name => name;
     Db.GetPathToConfig := fun vm name => "/etc/mysql/" +:+ name +:+ ".cnf";
     Db.IssueCommand := issue |}.

Definition client : Db.VM := Db.mkVM "client" 4.
Definition server : Db.VM := Db.mkVM "server" 16.

Definition spec57 : Db.RelationalDbSpec :=
  Db.mkSpec "mysql" "5.7" false (Some "pkb-db-user") (Some "s3cret").

End DbScenario.

(** ** relational_db.py: resource metadata *)

Module DbMetadata.
Import Db.

(** The machine description inside a spec ([self.spec.db_spec], or the
    [vm_spec] of a group).  [zone] is always there; for the other
    attributes [None] stands for an attribute that the object does not have
    ([hasattr] is false). *)
Record MachineSpec : Type := mkMachineSpec {
  zone : pyval;
  machine_type : option pyval;
  cpus : option pyval;
  memory : option pyval;
  tier : option pyval;
  compute_units : option pyval
}.

Record DiskSpec : Type := mkDiskSpec {
  disk_type : pyval;
  disk_size : pyval
}.

Record VmGroupSpec : Type := mkVmGroupSpec {
  vm_spec : MachineSpec;
  disk_spec : DiskSpec
}.

(** The attributes of [self.spec] that only [GetResourceMetadata] reads. *)
Record MetadataSpec : Type := mkMetadataSpec {
  db_spec : MachineSpec;
  db_disk_spec : DiskSpec;
  backup_enabled : pyval;
  backup_start_time : pyval;
  vm_groups : list (string * VmGroupSpec)
}.

Definition metadata_t : Type := list (string * pyval).

(** [metadata[k] = v] and [metadata.update(other)] *)
Fixpoint mset (k : string) (v : pyval) (d : metadata_t) : metadata_t :=
  match d with
  | [] => [(k, v)]
  | (k', v') :: r =>
      if String.eqb k k' then (k, v) :: r else (k', v') :: mset k v r
  end.

Definition mupdate (d other : metadata_t) : metadata_t :=
  fold_left (fun acc kv => mset (fst kv) (snd kv) acc) other d.

(** [hasattr(x, a) and x.a] *)
Definition has_truthy (o : option pyval) : bool :=
  match o with
  | Some v => truthy_val v
  | None => false
  end.

Definition has_attr (o : option pyval) : bool :=
  match o with
  | Some _ => true
  | None => false
  end.

Definition VOptInt (o : option Z) : pyval :=
  match o with
  | Some n => VInt n
  | None => VNone
  end.

(** [BaseRelationalDb.GetResourceMetadata]; [instance_id] is the attribute
    of that name, which the classes of the providers set, and [db_flags]
    the flag of that name. *)
Definition GetResourceMetadata (self : BaseRelationalDb) (mspec : MetadataSpec)
    (instance_id : option pyval) (db_flags : list string) : outcome metadata_t :=
  match subscript (vm_groups mspec) "clients" with
  | Err e => Err e
  | Ok clients =>
  match instance_id with
  | None => Err (PyAttributeError "instance_id")
  | Some iid =>
  let metadata : metadata_t :=
    [("zone", zone (db_spec mspec));
     ("disk_type", disk_type (db_disk_spec mspec));
     ("disk_size", disk_size (db_disk_spec mspec));
     ("engine", VStr (engine (spec self)));
     ("high_availability", VBool (high_availability (spec self)));
     ("backup_enabled", backup_enabled mspec);
     ("backup_start_time", backup_start_time mspec);
     ("engine_version", VStr (engine_version (spec self)));
     ("client_vm_zone", zone (vm_spec clients));
     ("use_managed_db", VBool (is_managed_db self));
     ("instance_id", iid);
     ("client_vm_disk_type", disk_type (disk_spec clients));
     ("client_vm_disk_size", disk_size (disk_spec clients))] in
  match
    (if negb (is_managed_db self) then
       match innodb_buffer_pool_size self, innodb_log_file_size self with
       | Some pool, Some log =>
           Ok (mupdate metadata
                 [("unmanaged_db_innodb_buffer_pool_size_gb", VOptInt pool);
                  ("unmanaged_db_innodb_log_file_size_mb", VInt log)])
       | None, _ => Err (PyAttributeError "innodb_buffer_pool_size")
       | Some _, None => Err (PyAttributeError "innodb_log_file_size")
       end
     else Ok metadata)
  with
  | Err e => Err e
  | Ok metadata =>
  match
    (if has_truthy (machine_type (db_spec mspec)) then
       Ok (mupdate metadata
             [("machine_type", default VNone (machine_type (db_spec mspec)))])
     else if has_attr (cpus (db_spec mspec)) && has_attr (memory (db_spec mspec)) then
       Ok (mupdate
             (mupdate metadata [("cpus", default VNone (cpus (db_spec mspec)))])
             [("memory", default VNone (memory (db_spec mspec)))])
     else if has_attr (tier (db_spec mspec))
             && has_attr (compute_units (db_spec mspec)) then
       Ok (mupdate
             (mupdate metadata [("tier", default VNone (tier (db_spec mspec)))])
             [("compute_units", default VNone (compute_units (db_spec mspec)))])
     else Err (RelationalDbPropertyNotSet "Machine type of the database must be set."))
  with
  | Err e => Err e
  | Ok metadata =>
  match
    (if has_truthy (machine_type (vm_spec clients)) then
       Ok (mupdate metadata
             [("client_vm_machine_type",
               default VNone (machine_type (vm_spec clients)))])
     else if has_attr (cpus (vm_spec clients))
             && has_attr (memory (vm_spec clients)) then
       Ok (mupdate
             (mupdate metadata
                [("client_vm_cpus", default VNone (cpus (vm_spec clients)))])
             [("client_vm_memory", default VNone (memory (vm_spec clients)))])
     else Err (RelationalDbPropertyNotSet "Machine type of the client VM must be set."))
  with
  | Err e => Err e
  | Ok metadata =>
      match db_flags with
      | _ :: _ => Ok (mupdate metadata [("db_flags", VList db_flags)])
      | [] => Ok metadata
      end
  end end end end end.

End DbMetadata.

(** * Properties *)

(** ** JobResult and wall time *)

Lemma Qplus_0_r_eq (q : Q) : (q + 0 == q)%Q.
Proof. ring. Qed.

(** C4. For a job result with non-negative run and pending times, the wall
    time is their sum (and so non-negative); when the backend does not
    supply the pending time it is 0, and the wall time is the run time. *)
Theorem wall_time_sum (j : JobResult) :
  (0 <= run_time j)%Q ->
  (0 <= pending_time j)%Q ->
  wall_time j = (run_time j + pending_time j)%Q
  /\ (0 <= wall_time j)%Q
  /\ pending_time (JobResult_init (run_time j) None) = 0%Q
  /\ (wall_time (JobResult_init (run_time j) None) == run_time j)%Q.
Proof.
  intros Hr Hp. repeat split.
  - unfold wall_time.
    replace 0%Q with (0 + 0)%Q by reflexivity.
    apply Qplus_le_compat; assumption.
  - unfold wall_time, JobResult_init; simpl. apply Qplus_0_r_eq.
Qed.

Lemma wall_time_sum_witness :
  let j := mkJobResult (7 # 2) (1 # 2) in
  wall_time j = ((7 # 2) + (1 # 2))%Q
  /\ (0 <= wall_time j)%Q
  /\ pending_time (JobResult_init (run_time j) None) = 0%Q
  /\ (wall_time (JobResult_init (run_time j) None) == run_time j)%Q.
Proof.
  apply (wall_time_sum (mkJobResult (7 # 2) (1 # 2))); simpl; discriminate.
Defined.

Lemma total_seconds_nonneg (td : timedelta) :
  0 <= delta_us td -> (0 <= total_seconds td)%Q.
Proof.
  intros H. unfold total_seconds, Qle; simpl. lia.
Qed.

(** C2. When the start is later than the end, [_ProcessWallTime] raises a
    [ValueError], which the polling protocol does not retry; otherwise it
    returns the elapsed time in seconds, which is not negative.  No pair of
    instants makes it return a negative duration. *)
Theorem ProcessWallTime_contract (start_time end_time : datetime) :
  (instant_us start_time > instant_us end_time ->
     exists e, _ProcessWallTime start_time end_time = Raise e
               /\ exn_cls e = ValueError
               /\ matches e Poll_retryable_exceptions = false)
  /\ (instant_us start_time <= instant_us end_time ->
        exists d, _ProcessWallTime start_time end_time = Return d
                  /\ (0 <= d)%Q
                  /\ (d == inject_Z (instant_us end_time - instant_us start_time)
                           / 1000000)%Q)
  /\ (forall d, _ProcessWallTime start_time end_time = Return d -> (0 <= d)%Q).
Proof.
  unfold _ProcessWallTime, datetime_gt.
  destruct (Z.gtb_spec (instant_us start_time) (instant_us end_time)) as [Hgt | Hle].
  - split; [| split].
    + intros _. eexists. repeat split.
    + intros Hcontra. lia.
    + intros d Hd. discriminate Hd.
  - split; [| split].
    + intros Hcontra. lia.
    + intros _. eexists. split; [reflexivity |]. split.
      * apply total_seconds_nonneg. simpl. lia.
      * unfold total_seconds, datetime_sub; simpl.
        unfold Qeq, Qdiv, Qmult, Qinv, inject_Z; simpl. lia.
    + intros d Hd. injection Hd as <-.
      apply total_seconds_nonneg. simpl. lia.
Qed.

Lemma ProcessWallTime_contract_witness :
  (exists e, _ProcessWallTime (mk_datetime 5000000) (mk_datetime 2000000) = Raise e
             /\ exn_cls e = ValueError
             /\ matches e Poll_retryable_exceptions = false)
  /\ (exists d, _ProcessWallTime (mk_datetime 2000000) (mk_datetime 5000000) = Return d
                /\ (0 <= d)%Q
                /\ (d == inject_Z (5000000 - 2000000) / 1000000)%Q).
Proof.
  split.
  - apply (ProcessWallTime_contract (mk_datetime 5000000) (mk_datetime 2000000)).
    simpl. lia.
  - apply (ProcessWallTime_contract (mk_datetime 2000000) (mk_datetime 5000000)).
    simpl. lia.
Defined.

(** ** Synchronous backends *)

Section Backends.
Context {World : Type} `{P : Platform World}.

(** Exceptions that are not [JobNotCompletedError]s are not retried. *)
Lemma matches_retryable (e : exn) :
  matches e Poll_retryable_exceptions = isinstance e JobNotCompletedError.
Proof.
  unfold matches, Poll_retryable_exceptions; simpl. apply orb_false_r.
Qed.

(** C7. On the unmanaged yarn and spark clusters, whose [SubmitJob] blocks
    until the job has finished, every call of [_GetCompletedJob] raises a
    [NotImplementedError] at once (the world is untouched), and that
    exception is not among the retryable ones of the polling protocol. *)
Theorem sync_GetCompletedJob_fails_fast (job_id : string) (w : World) :
  Forall (fun self : DpbService World =>
            exists e, _GetCompletedJob self job_id w = (Raise e, w)
                      /\ exn_cls e = NotImplementedError
                      /\ matches e Poll_retryable_exceptions = false)
         [UnmanagedDpbServiceYarnCluster; UnmanagedDpbSparkCluster].
Proof.
  repeat constructor; eexists; repeat split.
Qed.

(** C9. [DistributedCopy] is [SubmitJob] with the job type hadoop, the class
    [org.apache.hadoop.tools.DistCp], the arguments [[source; destination]]
    and the given properties, every other argument being left at its
    default; its outcome is the outcome of that call.  On the yarn cluster
    the command therefore is the hadoop command, the class, the merged
    properties and the two paths, in this order. *)
Theorem DistributedCopy_is_SubmitJob (self : DpbService World)
    (source destination : string) (props : option pydict) (w : World) :
  DistributedCopy self source destination props w
  = SubmitJob self
      (mkSubmitJobArgs None (Some "org.apache.hadoop.tools.DistCp") None None
         None None (Some [source; destination]) None None
         (Some HADOOP_JOB_TYPE) props) w
  /\ Yarn_cmd_string
       (mkSubmitJobArgs None (Some "org.apache.hadoop.tools.DistCp") None None
          None None (Some [source; destination]) None None
          (Some HADOOP_JOB_TYPE) props)
     = result_bind (merged_properties props) (fun all_properties =>
         Return (join " "
           ([HADOOP_CMD; "org.apache.hadoop.tools.DistCp"]
            ++ map (fun kv => "-D" +:+ format_kv (fst kv) (snd kv)) all_properties
            ++ [source; destination]))).
Proof.
  split; [reflexivity |].
  unfold Yarn_cmd_string; simpl.
  destruct (merged_properties props) as [d | e]; reflexivity.
Qed.

(** The unmanaged spark cluster does not take hadoop jobs, so a distributed
    copy on it raises [NotImplementedError] before anything is sent. *)
Lemma DistributedCopy_on_spark (source destination : string)
    (props : option pydict) (w : World) :
  DistributedCopy UnmanagedDpbSparkCluster source destination props w
  = (Raise (mk_exn NotImplementedError "" None), w).
Proof. reflexivity. Qed.

(** C10. In [UnmanagedDpbSparkCluster.SubmitJob] with a non-empty
    [job_files], the command handed to the leader is made of [--files], the
    comma-joined files, the main jar or pyspark file and the job arguments
    only: the assignment to [cmd] drops spark-submit, [--class] and every
    [--conf], whatever the class name and the properties are. *)
Theorem Spark_job_files_replace_cmd (a : SubmitJobArgs)
    (files : list string) (main : string) (all_properties : pydict) :
  job_files a = Some files ->
  files <> [] ->
  main <> "" ->
  (job_type a = Some SPARK_JOB_TYPE /\ jarfile a = Some main
   \/ job_type a = Some PYSPARK_JOB_TYPE /\ pyspark_file a = Some main) ->
  merged_properties (properties a) = Return all_properties ->
  Spark_cmd_string a
  = Return (join " " (["--files"; join "," files; main]
                      ++ default [] (job_arguments a)))
  /\ forall w, Spark_SubmitJob a w
               = run_on_leader
                   (join " " (["--files"; join "," files; main]
                              ++ default [] (job_arguments a)))
                   (job_stdout_file a) w.
Proof.
  intros Hfiles Hne Hmain Hkind Hprops.
  assert (Hcmd : Spark_cmd_string a
                 = Return (join " " (["--files"; join "," files; main]
                                     ++ default [] (job_arguments a)))).
  { destruct files as [| f fs]; [congruence |].
    destruct main as [| c m]; [congruence |].
    unfold Spark_cmd_string.
    destruct Hkind as [[Ht Hj] | [Ht Hj]];
      rewrite Hprops, Hfiles, Ht, Hj;
      destruct (job_arguments a) as [[| x l] |]; reflexivity. }
  split; [exact Hcmd |].
  intros w. unfold Spark_SubmitJob, bind, lift. by rewrite Hcmd.
Qed.

End Backends.

Lemma Spark_job_files_replace_cmd_witness :
  let P := Scenario.platform ["spark.executor.memory=4g"] Scenario.transport_ok in
  let a := mkSubmitJobArgs (Some "app.jar") (Some "org.example.Main") None None
             None None (Some ["10"]) (Some ["a.txt"; "b.txt"]) None
             (Some SPARK_JOB_TYPE) (Some [("spark.ui.enabled", "false")]) in
  Spark_cmd_string a = Return "--files a.txt,b.txt app.jar 10"
  /\ forall w, Spark_SubmitJob a w
               = run_on_leader "--files a.txt,b.txt app.jar 10" None w.
Proof.
  intros P a.
  apply (Spark_job_files_replace_cmd (P := P) a ["a.txt"; "b.txt"] "app.jar"
           [("spark.executor.memory", "4g"); ("spark.ui.enabled", "false")]).
  - reflexivity.
  - discriminate.
  - discriminate.
  - left. split; reflexivity.
  - reflexivity.
Defined.

(** Without [job_files] the same job keeps the whole command line. *)
Example Spark_cmd_without_job_files :
  let P := Scenario.platform ["spark.executor.memory=4g"] Scenario.transport_ok in
  Spark_cmd_string
    (mkSubmitJobArgs (Some "app.jar") (Some "org.example.Main") None None
       None None (Some ["10"]) None None
       (Some SPARK_JOB_TYPE) (Some [("spark.ui.enabled", "false")]))
  = Return ("/opt/pkb/spark/bin/spark-submit --class org.example.Main "
            +:+ "--conf spark.executor.memory=4g --conf spark.ui.enabled=false "
            +:+ "app.jar 10").
Proof. reflexivity. Qed.

(** ** Dictionaries *)

Section DictFacts.

Lemma dict_get_set (k k' v : string) (d : pydict) :
  dict_get k (dict_set k' v d) = if String.eqb k k' then Some v else dict_get k d.
Proof.
  induction d as [| [k1 v1] r IH]; simpl.
  - reflexivity.
  - destruct (String.eqb_spec k' k1) as [-> | Hne]; simpl.
    + destruct (String.eqb k k1); reflexivity.
    + rewrite IH.
      destruct (String.eqb_spec k k1) as [-> | Hne1]; [| reflexivity].
      destruct (String.eqb_spec k1 k'); congruence.
Qed.

Lemma keys_dict_set (k v : string) (d : pydict) (x : string) :
  x ∈ map fst (dict_set k v d) <-> x = k \/ x ∈ map fst d.
Proof.
  induction d as [| [k1 v1] r IH]; simpl.
  - rewrite list_elem_of_singleton, elem_of_nil. tauto.
  - destruct (String.eqb_spec k k1) as [-> | Hne]; simpl.
    + rewrite !elem_of_cons. tauto.
    + rewrite !elem_of_cons, IH. tauto.
Qed.

Lemma wf_dict_set (k v : string) (d : pydict) : wf d -> wf (dict_set k v d).
Proof.
  unfold wf. induction d as [| [k1 v1] r IH]; simpl; intros Hwf.
  - apply NoDup_singleton.
  - apply NoDup_cons in Hwf as [Hnotin Hr].
    destruct (String.eqb_spec k k1) as [-> | Hne]; simpl.
    + apply NoDup_cons; auto.
    + apply NoDup_cons. split; [| auto].
      rewrite keys_dict_set. intros [-> | Hin]; [congruence | contradiction].
Qed.

Lemma wf_dict_update (d other : pydict) : wf d -> wf (dict_update d other).
Proof.
  unfold dict_update. revert d.
  induction other as [| [k v] r IH]; simpl; intros d Hwf; [assumption |].
  apply IH, wf_dict_set, Hwf.
Qed.






Lemma dict_of_pairs_raises (l : list (list string)) (acc : pydict) (e : exn) :
  dict_of_pairs acc l = Raise e -> exn_cls e = ValueError.
Proof.
  revert acc. induction l as [| p r IH]; simpl; intros acc He.
  - discriminate.
  - destruct p as [| k [| v [| x p']]]; try (injection He as <-; reflexivity).
    eapply IH, He.
Qed.

End DictFacts.

(** ** Submitting a job *)

Section Submission.
Context {World : Type} `{P : Platform World}.



(** Before the leader is contacted, [SubmitJob] can only fail with an
    unsupported job type, a malformed job property flag or, on spark, a
    missing main file. *)
Lemma Yarn_cmd_string_raises (a : SubmitJobArgs) (e : exn) :
  Yarn_cmd_string a = Raise e ->
  exn_cls e = NotImplementedError \/ exn_cls e = ValueError.
Proof.
  unfold Yarn_cmd_string, merged_properties, GetJobProperties.
  destruct (negb _); [intros [= <-]; by left |].
  destruct (dict_of_pairs _ _) as [d | e0] eqn:Hd; simpl; [discriminate |].
  intros [= <-]. right. eapply dict_of_pairs_raises, Hd.
Qed.

Lemma Spark_cmd_string_raises (a : SubmitJobArgs) (e : exn) :
  Spark_cmd_string a = Raise e ->
  exn_cls e = NotImplementedError \/ exn_cls e = ValueError
  \/ exn_cls e = AssertionError.
Proof.
  unfold Spark_cmd_string, merged_properties, GetJobProperties, assert_str.
  destruct (negb _); [intros [= <-]; by left |].
  destruct (dict_of_pairs _ _) as [d | e0] eqn:Hd; simpl.
  - repeat case_bool_decide; repeat case_match; simpl;
      intros [= <-] || discriminate; right; by right.
  - intros [= <-]. right; left. eapply dict_of_pairs_raises, Hd.
Qed.

(** What [run_on_leader] raises is not a [RemoteCommandError]; a
    [RemoteCommandError] of the transport comes out wrapped. *)
Lemma run_on_leader_no_leak (cmd : string) (out : option string)
    (w w' : World) (e : exn) :
  run_on_leader cmd out w = (Raise e, w') ->
  isinstance e RemoteCommandError = false.
Proof.
  unfold run_on_leader, bind, try_except, raise, ret.
  destruct (datetime_now w) as [t0 w1].
  destruct (RobustRemoteCommand cmd w1) as [[o | e0] w2].
  - destruct (datetime_now w2) as [t1 w3].
    destruct (truthy_str out).
    + destruct (write_file _ _ w3) as [[msg |] w4]; intros [= <- <-] || discriminate.
      reflexivity.
    + discriminate.
  - destruct (isinstance e0 RemoteCommandError) eqn:He0.
    + intros [= <- <-]. reflexivity.
    + intros [= <- <-]. exact He0.
Qed.

Lemma run_on_leader_wraps (cmd : string) (out : option string)
    (w w1 : World) (e : exn) :
  RobustRemoteCommand cmd (snd (datetime_now w)) = (Raise e, w1) ->
  isinstance e RemoteCommandError = true ->
  run_on_leader cmd out w = (Raise (mk_exn JobSubmissionError "" (Some e)), w1).
Proof.
  intros Hcmd He.
  unfold run_on_leader, bind, try_except, raise.
  destruct (datetime_now w) as [t0 w0]. simpl in Hcmd.
  by rewrite Hcmd, He.
Qed.

(** C3. On both unmanaged backends: when the transport fails with a
    [RemoteCommandError] on the command of a [SubmitJob] call, the call
    raises a [JobSubmissionError] whose cause is that error; and whatever a
    [SubmitJob] call raises, it is not a [RemoteCommandError]. *)
Theorem SubmitJob_wraps_transport_error (a : SubmitJobArgs) (w : World) :
  Forall (fun b : (SubmitJobArgs -> result string) * DpbService World =>
            (forall cmd e w1,
                fst b a = Return cmd ->
                RobustRemoteCommand cmd (snd (datetime_now w)) = (Raise e, w1) ->
                isinstance e RemoteCommandError = true ->
                exists e', SubmitJob (snd b) a w = (Raise e', w1)
                           /\ exn_cls e' = JobSubmissionError
                           /\ exn_cause e' = Some e)
            /\ (forall e w', SubmitJob (snd b) a w = (Raise e, w') ->
                             isinstance e RemoteCommandError = false))
         [(Yarn_cmd_string, UnmanagedDpbServiceYarnCluster);
          (Spark_cmd_string, UnmanagedDpbSparkCluster)].
Proof.
  repeat constructor; simpl.
  - intros cmd e w1 Hcmd Hfail He.
    exists (mk_exn JobSubmissionError "" (Some e)). split; [| split; reflexivity].
    unfold Yarn_SubmitJob, bind, lift. rewrite Hcmd.
    by apply run_on_leader_wraps.
  - intros e w'. unfold Yarn_SubmitJob, bind, lift.
    destruct (Yarn_cmd_string a) as [cmd | e0] eqn:Hcmd.
    + apply run_on_leader_no_leak.
    + intros [= <- <-]. unfold isinstance.
      by destruct (Yarn_cmd_string_raises _ _ Hcmd) as [-> | ->].
  - intros cmd e w1 Hcmd Hfail He.
    exists (mk_exn JobSubmissionError "" (Some e)). split; [| split; reflexivity].
    unfold Spark_SubmitJob, bind, lift. rewrite Hcmd.
    by apply run_on_leader_wraps.
  - intros e w'. unfold Spark_SubmitJob, bind, lift.
    destruct (Spark_cmd_string a) as [cmd | e0] eqn:Hcmd.
    + apply run_on_leader_no_leak.
    + intros [= <- <-]. unfold isinstance.
      by destruct (Spark_cmd_string_raises _ _ Hcmd) as [-> | [-> | ->]].
Qed.

End Submission.


Example merge_by_evaluation :
  let P := Scenario.platform ["a=1"] Scenario.transport_ok in
  merged_properties (Some [("a", "2"); ("b", "3")])
  = Return [("a", "2"); ("b", "3")]
  /\ Yarn_cmd_string
       (mkSubmitJobArgs None (Some "org.example.Sort") None None None None
          (Some ["in"; "out"]) None None (Some HADOOP_JOB_TYPE)
          (Some [("a", "2"); ("b", "3")]))
     = Return "/opt/pkb/hadoop/bin/hadoop org.example.Sort -Da=2 -Db=3 in out".
Proof. split; reflexivity. Qed.

Lemma SubmitJob_wraps_transport_error_witness :
  let P := Scenario.platform [] Scenario.transport_down in
  let a := mkSubmitJobArgs None (Some "org.example.Sort") None None None None
             None None None (Some HADOOP_JOB_TYPE) None in
  exists e', SubmitJob UnmanagedDpbServiceYarnCluster a Scenario.w0
             = (Raise e',
                Scenario.mkWorld 1000000
                  ["/opt/pkb/hadoop/bin/hadoop org.example.Sort"] [] 0)
             /\ exn_cls e' = JobSubmissionError
             /\ exn_cause e'
                = Some (mk_exn RemoteCommandError "ssh: connection refused" None).
Proof.
  intros P a.
  pose proof (SubmitJob_wraps_transport_error (P := P) a Scenario.w0) as Hall.
  apply Forall_cons_1 in Hall as [[Hwrap _] _].
  apply (Hwrap "/opt/pkb/hadoop/bin/hadoop org.example.Sort"); reflexivity.
Defined.

(** ** Polling for completion *)

Section Polling.
Context {World : Type} `{P : Platform World}.
Variable self : DpbService World.
Variable job_id : string.
Variables timeout poll_interval : Z.

Abbreviation loop fuel start :=
  (Retry_loop fuel start timeout poll_interval Poll_retryable_exceptions
              (Poll self job_id)).

Lemma Poll_pending (w w1 : World) :
  _GetCompletedJob self job_id w = (Return None, w1) ->
  exists e, Poll self job_id w = (Raise e, w1)
            /\ exn_cls e = JobNotCompletedError
            /\ matches e Poll_retryable_exceptions = true.
Proof.
  intros Hprobe. eexists. unfold Poll, bind. rewrite Hprobe.
  split; [reflexivity | split; reflexivity].
Qed.

Lemma Poll_raises (w w1 : World) (e : exn) :
  _GetCompletedJob self job_id w = (Raise e, w1) ->
  Poll self job_id w = (Raise e, w1).
Proof. intros Hprobe. unfold Poll, bind. by rewrite Hprobe. Qed.

Lemma Poll_done (w w1 : World) (r : JobResult) :
  _GetCompletedJob self job_id w = (Return (Some r), w1) ->
  Poll self job_id w = (Return r, w1).
Proof. intros Hprobe. unfold Poll, bind. by rewrite Hprobe. Qed.

(** A probe that finds the job not finished makes [Poll] raise a retryable
    exception, in the world the probe left. *)
Lemma Poll_not_finished (w w1 : World) :
  not_finished self job_id w w1 ->
  exists e, Poll self job_id w = (Raise e, w1)
            /\ matches e Poll_retryable_exceptions = true.
Proof.
  intros [Hnone | (e & Hraise & Hinst)].
  - destruct (Poll_pending _ _ Hnone) as (e & HPoll & _ & Hretry). eauto.
  - exists e. split; [by apply Poll_raises |]. by rewrite matches_retryable.
Qed.

Lemma Retry_loop_step (fuel : nat) (start : Z) (w : World) :
  loop (S fuel) start w
  = match Poll self job_id w with
    | (Return a, w1) => Some (Return a, w1)
    | (Raise e, w1) =>
        if matches e Poll_retryable_exceptions then
          if time_time w1 - start >? timeout then
            Some (Raise (mk_exn TimeoutError "" None), w1)
          else loop fuel start (time_sleep poll_interval w1)
        else Some (Raise e, w1)
    end.
Proof. reflexivity. Qed.

(** More fuel does not change an outcome. *)
Lemma Retry_loop_fuel_mono (fuel : nat) :
  forall (fuel' : nat) (start : Z) (w : World) o,
    loop fuel start w = Some o -> (fuel <= fuel')%nat -> loop fuel' start w = Some o.
Proof.
  induction fuel as [| fuel IH]; intros fuel' start w o Hloop Hle.
  - discriminate.
  - destruct fuel' as [| fuel']; [lia |].
    rewrite Retry_loop_step in *.
    destruct (Poll self job_id w) as [[r | e] w1]; [exact Hloop |].
    destruct (matches e Poll_retryable_exceptions); [| exact Hloop].
    destruct (time_time w1 - start >? timeout); [exact Hloop |].
    apply IH; [exact Hloop | lia].
Qed.

Lemma Retry_loop_retried (fuel : nat) (start : Z) (w : World) :
  retried self job_id timeout start w ->
  loop (S fuel) start w
  = loop fuel start (time_sleep poll_interval (snd (Poll self job_id w))).
Proof.
  intros (w1 & Hpending & Hwithin).
  destruct (Poll_not_finished _ _ Hpending) as (e & HPoll & Hretry).
  rewrite Retry_loop_step, HPoll, Hretry. simpl.
  destruct (Z.gtb_spec (time_time w1 - start) timeout); [lia | reflexivity].
Qed.

(** An attempt that ends the call ends it with its own outcome, in the
    world that its probe left. *)
Lemma Retry_loop_ends (fuel : nat) (start : Z) (w w' : World)
    (o : result JobResult) :
  ends_call self job_id timeout start w o w' ->
  loop (S fuel) start w = Some (o, w').
Proof.
  rewrite Retry_loop_step.
  intros [(r & Hprobe & ->) | [(e & Hprobe & Hdef & ->) | (Hpending & Hlate & ->)]].
  - by rewrite (Poll_done _ _ _ Hprobe).
  - rewrite (Poll_raises _ _ _ Hprobe). by rewrite matches_retryable, Hdef.
  - destruct (Poll_not_finished _ _ Hpending) as (e & HPoll & Hretry).
    rewrite HPoll, Hretry.
    destruct (Z.gtb_spec (time_time w' - start) timeout); [reflexivity | lia].
Qed.

(** The call ends at the first attempt that is not retried. *)
Lemma Retry_loop_complete (k : nat) :
  forall (fuel : nat) (start : Z) (w w' : World) (o : result JobResult),
    (forall i, (i < k)%nat ->
       retried self job_id timeout start (attempt_start self job_id poll_interval i w)) ->
    ends_call self job_id timeout start
              (attempt_start self job_id poll_interval k w) o w' ->
    (k < fuel)%nat ->
    loop fuel start w = Some (o, w').
Proof.
  induction k as [| k IH]; intros fuel start w w' o Hretried Hends Hfuel;
    (destruct fuel as [| fuel]; [lia |]).
  - by apply Retry_loop_ends.
  - rewrite Retry_loop_retried by (apply (Hretried 0%nat); lia).
    apply IH; [| exact Hends | lia].
    intros i Hi. apply (Hretried (S i)). lia.
Qed.

(** Conversely, an outcome of the loop is the outcome of an attempt that
    was reached through retried attempts only. *)
Lemma Retry_loop_sound (fuel : nat) :
  forall (start : Z) (w w' : World) (o : result JobResult),
    loop fuel start w = Some (o, w') ->
    exists k, (k < fuel)%nat
      /\ (forall i, (i < k)%nat ->
            retried self job_id timeout start
                    (attempt_start self job_id poll_interval i w))
      /\ ends_call self job_id timeout start
                   (attempt_start self job_id poll_interval k w) o w'.
Proof.
  induction fuel as [| fuel IH]; intros start w w' o Hloop; [discriminate |].
  rewrite Retry_loop_step in Hloop.
  assert (Hnext : forall w1 e,
    Poll self job_id w = (Raise e, w1) ->
    not_finished self job_id w w1 ->
    time_time w1 - start <= timeout ->
    loop fuel start (time_sleep poll_interval w1) = Some (o, w') ->
    exists k, (k < S fuel)%nat
      /\ (forall i, (i < k)%nat ->
            retried self job_id timeout start
                    (attempt_start self job_id poll_interval i w))
      /\ ends_call self job_id timeout start
                   (attempt_start self job_id poll_interval k w) o w').
  { intros w1 e HPoll Hpending Hwithin Hrest.
    destruct (IH _ _ _ _ Hrest) as (k & Hk & Hretried & Hends).
    exists (S k). split; [lia |].
    assert (Hshift : forall i,
      attempt_start self job_id poll_interval (S i) w
      = attempt_start self job_id poll_interval i (time_sleep poll_interval w1)).
    { intros i. cbn [attempt_start]. by rewrite HPoll. }
    split.
    - intros [| i] Hi.
      + exists w1. by split.
      + rewrite Hshift. apply Hretried. lia.
    - by rewrite Hshift. }
  destruct (_GetCompletedJob self job_id w) as [[[r |] | e] w1] eqn:Hprobe.
  - rewrite (Poll_done _ _ _ Hprobe) in Hloop. injection Hloop as <- <-.
    exists 0%nat. split; [lia |]. split; [intros i Hi; lia |].
    left. exists r. by split.
  - assert (Hpending : not_finished self job_id w w1) by (by left).
    destruct (Poll_not_finished _ _ Hpending) as (e & HPoll & Hretry).
    rewrite HPoll, Hretry in Hloop.
    destruct (Z.gtb_spec (time_time w1 - start) timeout) as [Hlate | Hwithin].
    + injection Hloop as <- <-.
      exists 0%nat. split; [lia |]. split; [intros i Hi; lia |].
      right; right. by split.
    + by apply (Hnext w1 e).
  - rewrite (Poll_raises _ _ _ Hprobe), matches_retryable in Hloop.
    destruct (isinstance e JobNotCompletedError) eqn:Hinst.
    + assert (Hpending : not_finished self job_id w w1) by (right; eauto).
      destruct (Z.gtb_spec (time_time w1 - start) timeout) as [Hlate | Hwithin].
      * injection Hloop as <- <-.
        exists 0%nat. split; [lia |]. split; [intros i Hi; lia |].
        right; right. by split.
      * apply (Hnext w1 e); auto. by apply Poll_raises.
    + injection Hloop as <- <-.
      exists 0%nat. split; [lia |]. split; [intros i Hi; lia |].
      right; left. exists e. by split.
Qed.

(** While the attempts find the job not finished, the loop runs into the
    timeout: at the latest at attempt [n] when [n] poll intervals exceed
    what is left of the timeout. *)
Lemma Retry_loop_timeout (n : nat) :
  forall (start : Z) (w : World),
    (forall d w0, time_time w0 + d <= time_time (time_sleep d w0)) ->
    (forall w0, time_time w0 <= time_time (snd (_GetCompletedJob self job_id w0))) ->
    0 < poll_interval ->
    timeout - (time_time w - start) < Z.of_nat n * poll_interval ->
    (forall i, (i <= n)%nat ->
       exists w1, not_finished self job_id
                    (attempt_start self job_id poll_interval i w) w1) ->
    exists k w',
      (k <= n)%nat
      /\ loop (S k) start w = Some (Raise (mk_exn TimeoutError "" None), w')
      /\ timeout < time_time w' - start.
Proof.
  induction n as [| n IH]; intros start w Hsleep Hmono Hpos Hleft Hpending;
    destruct (Hpending 0%nat ltac:(lia)) as (w1 & Hnf); cbn [attempt_start] in Hnf;
    destruct (Poll_not_finished _ _ Hnf) as (e & HPoll & Hretry);
    assert (Hclock : time_time w <= time_time w1)
      by (pose proof (Hmono w) as Hm;
          destruct Hnf as [Hp | (e' & Hp & _)]; rewrite Hp in Hm; exact Hm);
    destruct (Z.gtb_spec (time_time w1 - start) timeout) as [Hover | Hwithin].
  - exists 0%nat, w1. split; [lia |]. split; [| lia].
    rewrite Retry_loop_step, HPoll, Hretry.
    destruct (Z.gtb_spec (time_time w1 - start) timeout); [reflexivity | lia].
  - lia.
  - exists 0%nat, w1. split; [lia |]. split; [| lia].
    rewrite Retry_loop_step, HPoll, Hretry.
    destruct (Z.gtb_spec (time_time w1 - start) timeout); [reflexivity | lia].
  - destruct (IH start (time_sleep poll_interval w1) Hsleep Hmono Hpos)
      as (k & w' & Hk & Hloop & Hlate).
    + pose proof (Hsleep poll_interval w1). lia.
    + intros i Hi. destruct (Hpending (S i) ltac:(lia)) as (w2 & Hw2).
      exists w2. cbn [attempt_start] in Hw2. by rewrite HPoll in Hw2.
    + exists (S k), w'. split; [lia |]. split; [| exact Hlate].
      rewrite Retry_loop_step, HPoll, Hretry.
      destruct (Z.gtb_spec (time_time w1 - start) timeout); [lia | exact Hloop].
Qed.

(** C1. In [_WaitForJob] only "job not yet finished" is retried.  The call
    has an outcome exactly when some attempt [k], reached through attempts
    that found the job not finished within the timeout, ends it, and the
    outcome is that of this attempt, in the world its probe left: the
    result of a finished job (so a finished job is never polled again);
    the exception of [_GetCompletedJob] when it is not a
    [JobNotCompletedError], a [JobSubmissionError] for one (so a failure is
    raised at once, without sleep or further probe); the timeout error when
    the job is still not finished and more than [timeout] has elapsed.
    When the clock does not run backwards, sleeping takes at least the time
    asked for and the poll interval is positive, a job that is not finished
    at any of the first [N] attempts, [N] poll intervals exceeding the
    timeout, does end in the timeout error, whatever it does later.  The
    timeout error is not a [JobSubmissionError], and a
    [JobSubmissionError] is neither a timeout error nor retryable. *)
Theorem WaitForJob_retries_only_pending (w : World) :
  (forall (fuel : nat) (o : result JobResult) (w' : World),
      _WaitForJob fuel self job_id timeout poll_interval w = Some (o, w')
      <-> exists k, (k < fuel)%nat
            /\ (forall i, (i < k)%nat ->
                  retried self job_id timeout (time_time w)
                          (attempt_start self job_id poll_interval i w))
            /\ ends_call self job_id timeout (time_time w)
                         (attempt_start self job_id poll_interval k w) o w')
  /\ (forall (k fuel : nat) (e : exn) (w' : World),
        (forall i, (i < k)%nat ->
           retried self job_id timeout (time_time w)
                   (attempt_start self job_id poll_interval i w)) ->
        _GetCompletedJob self job_id (attempt_start self job_id poll_interval k w)
        = (Raise e, w') ->
        isinstance e JobNotCompletedError = false ->
        (k < fuel)%nat ->
        _WaitForJob fuel self job_id timeout poll_interval w = Some (Raise e, w'))
  /\ (forall (k fuel : nat) (r : JobResult) (w' : World),
        (forall i, (i < k)%nat ->
           retried self job_id timeout (time_time w)
                   (attempt_start self job_id poll_interval i w)) ->
        _GetCompletedJob self job_id (attempt_start self job_id poll_interval k w)
        = (Return (Some r), w') ->
        (k < fuel)%nat ->
        _WaitForJob fuel self job_id timeout poll_interval w = Some (Return r, w'))
  /\ (forall (k fuel : nat) (w' : World),
        (forall i, (i < k)%nat ->
           retried self job_id timeout (time_time w)
                   (attempt_start self job_id poll_interval i w)) ->
        _GetCompletedJob self job_id (attempt_start self job_id poll_interval k w)
        = (Return None, w') ->
        timeout < time_time w' - time_time w ->
        (k < fuel)%nat ->
        _WaitForJob fuel self job_id timeout poll_interval w
        = Some (Raise (mk_exn TimeoutError "" None), w'))
  /\ (forall N : nat,
        (forall d w0, time_time w0 + d <= time_time (time_sleep d w0)) ->
        (forall w0, time_time w0 <= time_time (snd (_GetCompletedJob self job_id w0))) ->
        0 < poll_interval ->
        timeout < Z.of_nat N * poll_interval ->
        (forall i, (i <= N)%nat ->
           exists w1, not_finished self job_id
                        (attempt_start self job_id poll_interval i w) w1) ->
        exists (k : nat) (e : exn) (w' : World),
          (k <= N)%nat
          /\ (forall fuel, (k < fuel)%nat ->
                _WaitForJob fuel self job_id timeout poll_interval w
                = Some (Raise e, w'))
          /\ exn_cls e = TimeoutError
          /\ isinstance e JobSubmissionError = false
          /\ timeout < time_time w' - time_time w)
  /\ issubclass JobSubmissionError TimeoutError = false
  /\ matches (mk_exn JobSubmissionError "" None) Poll_retryable_exceptions = false.
Proof.
  unfold _WaitForJob, Retry.
  split; [| split; [| split; [| split; [| split; [| split; reflexivity]]]]].
  - intros fuel o w'. split.
    + apply Retry_loop_sound.
    + intros (k & Hk & Hretried & Hends). by apply (Retry_loop_complete k).
  - intros k fuel e w' Hretried Hfail Hdef Hfuel.
    apply (Retry_loop_complete k); [exact Hretried | | exact Hfuel].
    right; left. exists e. by split.
  - intros k fuel r w' Hretried Hdone Hfuel.
    apply (Retry_loop_complete k); [exact Hretried | | exact Hfuel].
    left. exists r. by split.
  - intros k fuel w' Hretried Hnone Hlate Hfuel.
    apply (Retry_loop_complete k); [exact Hretried | | exact Hfuel].
    right; right. split; [by left | by split].
  - intros N Hsleep Hmono Hpos Hlong Hpending.
    destruct (Retry_loop_timeout N (time_time w) w Hsleep Hmono Hpos)
      as (k & w' & Hk & Hloop & Hlate); [lia | exact Hpending |].
    exists k, (mk_exn TimeoutError "" None), w'.
    split; [exact Hk |].
    split; [| split; [reflexivity | split; [reflexivity | exact Hlate]]].
    intros fuel Hfuel.
    apply (Retry_loop_fuel_mono (S k)); [exact Hloop | lia].
Qed.

End Polling.

Lemma WaitForJob_retries_only_pending_witness :
  let P := Scenario.platform [] Scenario.transport_ok in
  _WaitForJob 3 (Scenario.polled Scenario.fails_on_third) "job-1"
              5000000 1000000 Scenario.w0
  = Some (Raise (mk_exn JobSubmissionError "job failed" None),
          Scenario.mkWorld 2300000 [] [] 3)
  /\ _WaitForJob 3 (Scenario.polled Scenario.done_on_third) "job-1"
                 5000000 1000000 Scenario.w0
     = Some (Return (mkJobResult 42 7), Scenario.mkWorld 2300000 [] [] 3)
  /\ exists (k : nat) (e : exn) (w' : Scenario.World),
       (k <= 6)%nat
       /\ (forall fuel, (k < fuel)%nat ->
             _WaitForJob fuel (Scenario.polled Scenario.done_after_twenty) "job-1"
                         5000000 1000000 Scenario.w0
             = Some (Raise e, w'))
       /\ exn_cls e = TimeoutError
       /\ isinstance e JobSubmissionError = false
       /\ 5000000 < Scenario.clock w' - Scenario.clock Scenario.w0.
Proof.
  intros P.
  split; [| split].
  - apply (proj1 (proj2 (WaitForJob_retries_only_pending (P := P)
                           (Scenario.polled Scenario.fails_on_third) "job-1"
                           5000000 1000000 Scenario.w0)) 2%nat 3%nat).
    + intros i Hi.
      destruct i as [| [| i]]; [| | lia];
        (eexists; split; [left; reflexivity | cbn; lia]).
    + reflexivity.
    + reflexivity.
    + lia.
  - apply (proj1 (proj2 (proj2 (WaitForJob_retries_only_pending (P := P)
                                  (Scenario.polled Scenario.done_on_third) "job-1"
                                  5000000 1000000 Scenario.w0))) 2%nat 3%nat).
    + intros i Hi.
      destruct i as [| [| i]]; [| | lia];
        (eexists; split; [left; reflexivity | cbn; lia]).
    + reflexivity.
    + lia.
  - apply (proj1 (proj2 (proj2 (proj2 (proj2
             (WaitForJob_retries_only_pending (P := P)
                (Scenario.polled Scenario.done_after_twenty) "job-1"
                5000000 1000000 Scenario.w0))))) 6%nat).
    + intros d w. cbn. lia.
    + intros w. cbn. lia.
    + lia.
    + lia.
    + intros i Hi.
      do 7 (destruct i as [| i]; [eexists; left; reflexivity |]). lia.
Defined.

(** With a timeout of 5 s and probes spaced by 1 s (each taking 0.1 s), a
    job that never finishes is given up at the sixth probe, 5.6 s in. *)
Example WaitForJob_never_done :
  let P := Scenario.platform [] Scenario.transport_ok in
  _WaitForJob 10 (Scenario.polled Scenario.never_done) "job-1"
              5000000 1000000 Scenario.w0
  = Some (Raise (mk_exn TimeoutError "" None), Scenario.mkWorld 5600000 [] [] 6).
Proof. reflexivity. Qed.

(** So is a job that would have finished at the twenty-first probe. *)
Example WaitForJob_done_too_late :
  let P := Scenario.platform [] Scenario.transport_ok in
  _WaitForJob 30 (Scenario.polled Scenario.done_after_twenty) "job-1"
              5000000 1000000 Scenario.w0
  = Some (Raise (mk_exn TimeoutError "" None), Scenario.mkWorld 5600000 [] [] 6).
Proof. reflexivity. Qed.

(** With probes spaced by 1 s, a job that is found finished at the third
    probe is returned after two sleeps, well within a timeout of 10 s. *)
Example WaitForJob_done_on_third :
  let P := Scenario.platform [] Scenario.transport_ok in
  _WaitForJob 10 (Scenario.polled Scenario.done_on_third) "job-1"
              10000000 1000000 Scenario.w0
  = Some (Return (mkJobResult 42 7), Scenario.mkWorld 2300000 [] [] 3).
Proof. reflexivity. Qed.

(** ** User-managed resources *)

Section Lifecycle.
Context {World : Type} `{P : Platform World}.

Lemma user_managed_Create_Delete_skip_hooks
    (hooks : Hooks World) (r : BaseResource) (w : World) :
  user_managed r = true ->
  Create hooks r w = (Return tt, r, w) /\ Delete hooks r w = (Return tt, r, w).
Proof. intros Hum. unfold Create, Delete. by rewrite Hum. Qed.

(** For every resource constructed with [userManaged] true, [Create] and
    [Delete] return at once without invoking [_Create] or [_Delete] (or any
    other hook): whatever the hooks are, the outcome is success and the
    resource and the world are unchanged.  A DPB service is user managed
    exactly when the [static_dpb_service_instance] of its spec is not
    [None]; [cluster_id] is that instance name when the name is not
    empty. *)
Theorem user_managed_never_invokes_hooks
    (hooks : Hooks World) (dpb_service_spec : DpbServiceSpec) (w : World) :
  (forall r : BaseResource,
      user_managed r = true ->
      Create hooks r w = (Return tt, r, w) /\ Delete hooks r w = (Return tt, r, w))
  /\ (user_managed (resource (BaseDpbService_init dpb_service_spec)) = true
      <-> static_dpb_service_instance dpb_service_spec <> None)
  /\ (forall name,
        static_dpb_service_instance dpb_service_spec = Some name ->
        let r := resource (BaseDpbService_init dpb_service_spec) in
        Create hooks r w = (Return tt, r, w)
        /\ Delete hooks r w = (Return tt, r, w)
        /\ (name <> "" -> cluster_id (BaseDpbService_init dpb_service_spec) = name)).
Proof.
  split; [| split].
  - intros r. apply user_managed_Create_Delete_skip_hooks.
  - simpl. destruct (static_dpb_service_instance dpb_service_spec);
      simpl; split; congruence.
  - intros name Hname r.
    assert (Hum : user_managed r = true) by (subst r; simpl; by rewrite Hname).
    destruct (user_managed_Create_Delete_skip_hooks hooks r w Hum) as [HC HD].
    split; [exact HC | split; [exact HD |]].
    intros Hne. simpl. rewrite Hname. simpl.
    destruct (String.eqb_spec name ""); [contradiction | reflexivity].
Qed.

End Lifecycle.

Lemma user_managed_never_invokes_hooks_witness :
  let P := Scenario.platform [] Scenario.transport_ok in
  let svc := BaseDpbService_init (mkDpbServiceSpec (Some "my-cluster") None) in
  Create Scenario.hooks (resource svc) Scenario.w0
  = (Return tt, resource svc, Scenario.w0)
  /\ Delete Scenario.hooks (resource svc) Scenario.w0
     = (Return tt, resource svc, Scenario.w0)
  /\ ("my-cluster" <> "" -> cluster_id svc = "my-cluster").
Proof.
  intros P svc.
  apply (proj2 (proj2 (user_managed_never_invokes_hooks (P := P) Scenario.hooks
                         (mkDpbServiceSpec (Some "my-cluster") None) Scenario.w0))
           "my-cluster").
  reflexivity.
Defined.

(** C6. The claim is right for every instance name but the empty one,
    where the code departs from it: with the empty string as
    [static_dpb_service_instance] the service is user managed, so that
    [Create] never creates a cluster, yet its [cluster_id] is not the given
    name but the one made from the run URI, the name of a cluster that the
    run would have created.  [__init__] tests [is not None] for the one and
    truthiness for the other. *)
Lemma empty_static_instance_cluster_id
    {World : Type} (P : Platform World) (hooks : Hooks World) (w : World) :
  let svc := BaseDpbService_init (mkDpbServiceSpec (Some "") None) in
  static_dpb_service_instance (spec svc) = Some ""
  /\ user_managed (resource svc) = true
  /\ Create hooks (resource svc) w = (Return tt, resource svc, w)
  /\ Delete hooks (resource svc) w = (Return tt, resource svc, w)
  /\ cluster_id svc = "pkb-" +:+ FLAGS_run_uri
  /\ cluster_id svc <> "".
Proof.
  intros svc. repeat split. discriminate.
Qed.

(** In the scenario, whose run URI is 4f2a, that service is named
    pkb-4f2a. *)
Example empty_static_instance_in_scenario :
  let P := Scenario.platform [] Scenario.transport_ok in
  cluster_id (BaseDpbService_init (mkDpbServiceSpec (Some "") None)) = "pkb-4f2a".
Proof. reflexivity. Qed.

(** A resource that is not user managed does run its hooks, in order. *)
Example managed_Create_runs_hooks :
  Create Scenario.hooks (BaseResource_init false) Scenario.w0
  = (Return tt, mkBaseResource false Created,
     Scenario.mkWorld 0 ["_CreateDependencies"; "_Create"] [] 0)
  /\ Delete Scenario.hooks (BaseResource_init false) Scenario.w0
     = (Return tt, mkBaseResource false Deleted,
        Scenario.mkWorld 0 ["_Delete"; "_DeleteDependencies"] [] 0).
Proof. split; reflexivity. Qed.

(** ** The concurrent runner *)

Section Runner.
Context {T R : Type}.
Variable f : T -> result R.
Variable targets : list T.

Lemma complete_length (slots : list (option (result R))) (i : nat) :
  length (complete f targets slots i) = length slots.
Proof.
  unfold complete. destruct (targets !! i); [apply length_insert | reflexivity].
Qed.

(** A slot that is filled stays filled with the same outcome, and the
    invocation for target [j] fills slot [j]. *)
Lemma complete_lookup (slots : list (option (result R))) (i j : nat) (t : T) :
  length slots = length targets ->
  targets !! j = Some t ->
  i = j \/ slots !! j = Some (Some (f t)) ->
  complete f targets slots i !! j = Some (Some (f t)).
Proof.
  intros Hlen Ht Hcase. unfold complete.
  destruct (decide (i = j)) as [-> | Hne].
  - rewrite Ht. apply list_lookup_insert_eq.
    rewrite Hlen. by apply lookup_lt_Some in Ht.
  - destruct Hcase as [? | Hslot]; [contradiction |].
    destruct (targets !! i); [| exact Hslot].
    by rewrite list_lookup_insert_ne.
Qed.

Lemma fold_complete_length (completion : list nat) :
  forall slots : list (option (result R)),
    length (fold_left (complete f targets) completion slots) = length slots.
Proof.
  induction completion as [| i c IH]; intros slots; simpl; [reflexivity |].
  by rewrite IH, complete_length.
Qed.

Lemma fold_complete_lookup (completion : list nat) :
  forall (slots : list (option (result R))) (j : nat) (t : T),
    length slots = length targets ->
    targets !! j = Some t ->
    j ∈ completion \/ slots !! j = Some (Some (f t)) ->
    fold_left (complete f targets) completion slots !! j = Some (Some (f t)).
Proof.
  induction completion as [| i c IH]; intros slots j t Hlen Ht Hcase; simpl.
  - destruct Hcase as [Hin | Hslot]; [by apply elem_of_nil in Hin | exact Hslot].
  - apply IH; [by rewrite complete_length | exact Ht |].
    destruct Hcase as [Hin | Hslot].
    + apply elem_of_cons in Hin as [-> | Hin]; [right | by left].
      apply complete_lookup; auto.
    + right. apply complete_lookup; auto.
Qed.

(** Once every invocation has completed, slot [j] holds the outcome for
    target [j], in whatever order they completed. *)
Lemma slots_after_completion (completion : list nat) :
  completion ≡ₚ seq 0 (length targets) ->
  fold_left (complete f targets) completion (replicate (length targets) None)
  = map (fun t => Some (f t)) targets.
Proof.
  intros Hperm. apply list_eq. intros j.
  destruct (targets !! j) as [t |] eqn:Ht.
  - rewrite list_lookup_fmap, Ht. simpl.
    apply fold_complete_lookup; [apply length_replicate | exact Ht |].
    left. rewrite Hperm. apply elem_of_seq.
    apply lookup_lt_Some in Ht. lia.
  - rewrite list_lookup_fmap, Ht. simpl.
    apply lookup_ge_None. rewrite fold_complete_length, length_replicate.
    by apply lookup_ge_None in Ht.
Qed.

Lemma all_completed_map (outcomes : list (result R)) :
  all_completed (map Some outcomes) = Some outcomes.
Proof.
  induction outcomes as [| o r IH]; simpl; [reflexivity |]. by rewrite IH.
Qed.

(** The outcome of the runner does not depend on the completion order. *)
Lemma RunThreaded_any_order (completion : list nat) :
  completion ≡ₚ seq 0 (length targets) ->
  RunThreaded completion f targets = Some (join_results (map f targets)).
Proof.
  intros Hperm. unfold RunThreaded.
  rewrite (slots_after_completion _ Hperm).
  change (map (fun t => Some (f t)) targets) with (map (Some ∘ f) targets).
  by rewrite <- (map_map f Some), all_completed_map.
Qed.

End Runner.

Lemma join_results_returns {T R : Type} (g : T -> R) (targets : list T) :
  join_results (map (fun t => Return (g t)) targets) = Return (map g targets).
Proof.
  induction targets as [| t r IH]; simpl; [reflexivity |]. by rewrite IH.
Qed.

(** C8. For targets [t1 .. tN] and a per-target function [g], the runner
    returns the N results [g t1 .. g tN], aligned with the targets,
    whichever the order in which the invocations complete; two completion
    orders give the same outcome for any per-target function, failing or
    not.  Targets a, b, c with [g t = t + "!"] give a!, b!, c!. *)
Theorem RunThreaded_input_order {T R : Type} (completion : list nat)
    (g : T -> R) (targets : list T) :
  completion ≡ₚ seq 0 (length targets) ->
  RunThreaded completion (fun t => Return (g t)) targets = Some (Return (map g targets))
  /\ length (map g targets) = length targets
  /\ (forall i t, targets !! i = Some t -> map g targets !! i = Some (g t))
  /\ (forall (f : T -> result R) (completion' : list nat),
        completion' ≡ₚ seq 0 (length targets) ->
        RunThreaded completion' f targets = RunThreaded completion f targets).
Proof.
  intros Hperm. split; [| split; [| split]].
  - by rewrite RunThreaded_any_order, join_results_returns.
  - apply length_map.
  - intros i t Ht. by rewrite list_lookup_fmap, Ht.
  - intros f completion' Hperm'. by rewrite !RunThreaded_any_order.
Qed.

Lemma RunThreaded_input_order_witness :
  RunThreaded [2; 0; 1]%nat (fun t => Return (t +:+ "!")) ["a"; "b"; "c"]
  = Some (Return ["a!"; "b!"; "c!"])
  /\ length ["a!"; "b!"; "c!"] = 3%nat.
Proof.
  destruct (RunThreaded_input_order [2; 0; 1]%nat (fun t => t +:+ "!") ["a"; "b"; "c"])
    as (Hrun & Hlen & _).
  - simpl. apply (Permutation_cons_append [0; 1]%nat 2%nat).
  - split; [exact Hrun | exact Hlen].
Defined.

(** When invocations fail, the others still run and one failure is
    surfaced, again whatever the completion order. *)
Example RunThreaded_failure :
  let f := fun t : string =>
             if String.eqb t "b" then Raise (mk_exn RunError "b is down" None)
             else Return (t +:+ "!") in
  RunThreaded [1; 2; 0]%nat f ["a"; "b"; "c"]
  = Some (Raise (mk_exn RunError "b is down" None))
  /\ RunThreaded [0; 1; 2]%nat f ["a"; "b"; "c"]
     = Some (Raise (mk_exn RunError "b is down" None)).
Proof. split; reflexivity. Qed.

(** * Further properties of dpb_service.py *)

(** ** Job property flags *)

Lemma split_on_nonempty (sep : ascii) (s : string) : split_on sep s <> [].
Proof.
  destruct s as [| c r]; simpl; [discriminate |].
  destruct (Ascii.eqb c sep); [discriminate |].
  by destruct (split_on sep r).
Qed.

Lemma split_on_length (sep : ascii) (s : string) :
  length (split_on sep s) = S (count_char sep s).
Proof.
  induction s as [| c r IH]; simpl; [reflexivity |].
  destruct (Ascii.eqb c sep); simpl.
  - by rewrite IH.
  - pose proof (split_on_nonempty sep r) as Hne.
    destruct (split_on sep r) as [| h t]; [contradiction | exact IH].
Qed.

(** Joining the pieces of a split with the separator gives the string
    back. *)
Lemma join_split_on (sep : ascii) (s : string) :
  join (String sep EmptyString) (split_on sep s) = s.
Proof.
  induction s as [| c r IH]; simpl; [reflexivity |].
  destruct (Ascii.eqb_spec c sep) as [-> | Hne].
  - pose proof (split_on_nonempty sep r) as Hnil.
    unfold join in *. simpl.
    destruct (split_on sep r) as [| h t]; [contradiction |].
    simpl in *. by rewrite IH.
  - pose proof (split_on_nonempty sep r) as Hnil.
    unfold join in *.
    destruct (split_on sep r) as [| h t]; [contradiction |].
    simpl in *. destruct t; simpl in *; by rewrite <- IH.
Qed.

Lemma split_pair_format (flag k v : string) :
  split_on "=" flag = [k; v] -> format_kv k v = flag.
Proof.
  intros Hsplit. rewrite <- (join_split_on "=" flag), Hsplit. reflexivity.
Qed.

Lemma dict_of_pairs_ok_iff (l : list (list string)) (acc : pydict) :
  (exists d, dict_of_pairs acc l = Return d) <-> Forall (fun p => length p = 2%nat) l.
Proof.
  revert acc. induction l as [| p r IH]; intros acc; simpl.
  - split; [constructor | eauto].
  - destruct p as [| k [| v [| x p']]]; simpl.
    + split; [intros [d Hd]; discriminate | intros HF; by inversion HF].
    + split; [intros [d Hd]; discriminate | intros HF; by inversion HF].
    + rewrite IH. split; [by constructor | intros HF; by inversion HF].
    + split; [intros [d Hd]; discriminate | intros HF; by inversion HF].
Qed.

Section JobProperties.
Context {World : Type} `{P : Platform World}.

(** X1. [GetJobProperties] returns a dictionary exactly when every element
    of the [dpb_job_properties] flag holds one [=] and no more; whatever it
    raises otherwise is a [ValueError]. *)
Theorem GetJobProperties_ok_iff :
  ((exists d, GetJobProperties = Return d)
   <-> Forall (fun flag => count_char "=" flag = 1%nat) FLAGS_dpb_job_properties)
  /\ (forall e, GetJobProperties = Raise e -> exn_cls e = ValueError).
Proof.
  split.
  - unfold GetJobProperties. rewrite dict_of_pairs_ok_iff, Forall_map.
    apply Forall_iff. intros flag. simpl. rewrite split_on_length. lia.
  - intros e. apply dict_of_pairs_raises.
Qed.

End JobProperties.

Lemma dict_of_pairs_update (pairs acc : pydict) :
  dict_of_pairs acc (map (fun kv => [fst kv; snd kv]) pairs)
  = Return (dict_update acc pairs).
Proof.
  revert acc. induction pairs as [| [k v] r IH]; intros acc; simpl; [reflexivity |].
  apply IH.
Qed.

Lemma dict_get_app (k : string) (d1 d2 : pydict) :
  dict_get k (d1 ++ d2)
  = match dict_get k d1 with
    | Some v => Some v
    | None => dict_get k d2
    end.
Proof.
  induction d1 as [| [k1 v1] r IH]; simpl; [reflexivity |].
  destruct (String.eqb k k1); [reflexivity | exact IH].
Qed.

(** After [d.update(other)], for any list of items [other]: the last item
    of [other] with the key decides, and [d] when there is none. *)
Lemma dict_get_update_last (k : string) (other d : pydict) :
  dict_get k (dict_update d other)
  = match dict_get k (rev other) with
    | Some v => Some v
    | None => dict_get k d
    end.
Proof.
  unfold dict_update. revert d.
  induction other as [| [k1 v1] r IH]; intros d; simpl; [reflexivity |].
  rewrite IH, dict_get_app, dict_get_set. simpl.
  destruct (dict_get k (rev r)); [reflexivity |].
  destruct (String.eqb k k1); reflexivity.
Qed.

Lemma dict_set_fresh (k v : string) (d : pydict) :
  k ∉ map fst d -> dict_set k v d = d ++ [(k, v)].
Proof.
  induction d as [| [k1 v1] r IH]; simpl; intros Hfresh; [reflexivity |].
  apply not_elem_of_cons in Hfresh as [Hne Hr].
  destruct (String.eqb_spec k k1); [congruence |]. by rewrite IH.
Qed.

Lemma dict_update_fresh (other d : pydict) :
  NoDup (map fst other) ->
  (forall k, k ∈ map fst other -> k ∉ map fst d) ->
  dict_update d other = d ++ other.
Proof.
  unfold dict_update. revert d.
  induction other as [| [k v] r IH]; intros d Hnodup Hfresh; simpl.
  - by rewrite app_nil_r.
  - apply NoDup_cons in Hnodup as [Hk Hr].
    rewrite dict_set_fresh by (apply Hfresh; simpl; apply elem_of_cons; by left).
    rewrite IH; [by rewrite <- app_assoc | exact Hr |].
    intros k' Hin. rewrite map_app, elem_of_app. simpl. intros [Hd | Hk'].
    + eapply Hfresh; [| exact Hd]. simpl. apply elem_of_cons. by right.
    + apply list_elem_of_singleton in Hk' as ->. contradiction.
Qed.

Lemma pairs_of_flags (flags : list string) (pairs : pydict) :
  Forall2 (fun flag kv => split_on "=" flag = [fst kv; snd kv]) flags pairs ->
  map (split_on "=") flags = map (fun kv => [fst kv; snd kv]) pairs
  /\ map (fun kv => format_kv (fst kv) (snd kv)) pairs = flags.
Proof.
  induction 1 as [| flag kv flags pairs Hsplit _ [IH1 IH2]]; simpl; [by split |].
  split; [by rewrite Hsplit, IH1 |].
  by rewrite IH2, (split_pair_format _ _ _ Hsplit).
Qed.

Section JobPropertiesOrder.
Context {World : Type} `{P : Platform World}.

Lemma GetJobProperties_pairs (pairs : pydict) :
  Forall2 (fun flag kv => split_on "=" flag = [fst kv; snd kv])
          FLAGS_dpb_job_properties pairs ->
  GetJobProperties = Return (dict_update [] pairs).
Proof.
  intros Hflags. destruct (pairs_of_flags _ _ Hflags) as [Hsplit _].
  unfold GetJobProperties. rewrite Hsplit. apply dict_of_pairs_update.
Qed.

(** X2. When the elements of the [dpb_job_properties] flag split into the
    key-value pairs [pairs], [GetJobProperties] returns a dictionary without
    repeated keys in which every key has the value of the last pair with
    that key; when no key repeats, it is [pairs] itself, in flag order. *)
Theorem GetJobProperties_last_wins (pairs : pydict) :
  Forall2 (fun flag kv => split_on "=" flag = [fst kv; snd kv])
          FLAGS_dpb_job_properties pairs ->
  exists d,
    GetJobProperties = Return d
    /\ wf d
    /\ (forall k, dict_get k d = dict_get k (rev pairs))
    /\ (NoDup (map fst pairs) -> d = pairs).
Proof.
  intros Hflags.
  exists (dict_update [] pairs).
  split; [by apply GetJobProperties_pairs |]. split; [| split].
  - apply wf_dict_update. apply NoDup_nil_2.
  - intros k. rewrite dict_get_update_last. by destruct (dict_get k (rev pairs)).
  - intros Hnodup. rewrite dict_update_fresh; [reflexivity | exact Hnodup |].
    intros k _. simpl. apply not_elem_of_nil.
Qed.

(** X3. When the elements of the [dpb_job_properties] flag are key-value
    pairs with distinct keys, the [dpb_job_properties] entry of the
    metadata is the flag as it was given, joined with commas.  The
    [dpb_version] entry is never empty: it is [default] when the service
    has no version. *)
Theorem GetMetadata_job_properties (self : BaseDpbService)
    (machine_type worker_count : pyval) (cluster_properties : list string)
    (pairs : pydict) :
  Forall2 (fun flag kv => split_on "=" flag = [fst kv; snd kv])
          FLAGS_dpb_job_properties pairs ->
  NoDup (map fst pairs) ->
  exists md,
    GetMetadata self machine_type worker_count cluster_properties = Return md
    /\ lookup_key "dpb_job_properties" md
       = Some (VStr (join "," FLAGS_dpb_job_properties))
    /\ lookup_key "dpb_version" md
       = Some (VStr (str_or (dpb_version self) "default"))
    /\ str_or (dpb_version self) "default" <> ""
    /\ (truthy_str (dpb_version self) = false ->
        lookup_key "dpb_service_version" md
        = Some (VStr (dpb_service_type self +:+ "_default"))).
Proof.
  intros Hflags Hnodup.
  pose proof (GetJobProperties_pairs pairs Hflags) as Hget.
  rewrite dict_update_fresh in Hget;
    [| exact Hnodup | intros k _; simpl; apply not_elem_of_nil].
  simpl in Hget.
  destruct (pairs_of_flags _ _ Hflags) as [_ Hformat].
  eexists. unfold GetMetadata. rewrite Hget. simpl.
  split; [reflexivity |]. rewrite Hformat.
  split; [reflexivity |]. split; [reflexivity |]. split.
  - unfold str_or, truthy_str. destruct (dpb_version self) as [v |]; [| discriminate].
    simpl. destruct (String.eqb_spec v ""); [discriminate | assumption].
  - intros Hfalsy. unfold str_or. by rewrite Hfalsy.
Qed.

End JobPropertiesOrder.

Lemma GetJobProperties_last_wins_witness :
  let P := Scenario.platform ["a=1"; "b=2"; "a=3"] Scenario.transport_ok in
  exists d,
    GetJobProperties = Return d
    /\ wf d
    /\ (forall k, dict_get k d = dict_get k (rev [("a", "1"); ("b", "2"); ("a", "3")]))
    /\ (NoDup (map fst [("a", "1"); ("b", "2"); ("a", "3")])
        -> d = [("a", "1"); ("b", "2"); ("a", "3")]).
Proof.
  intros P.
  apply (GetJobProperties_last_wins (P := P) [("a", "1"); ("b", "2"); ("a", "3")]).
  repeat constructor.
Defined.

Example GetJobProperties_repeated_key :
  let P := Scenario.platform ["a=1"; "b=2"; "a=3"] Scenario.transport_ok in
  GetJobProperties = Return [("a", "3"); ("b", "2")].
Proof. reflexivity. Qed.

Lemma GetMetadata_job_properties_witness :
  let P := Scenario.platform ["a=1"; "b=2"] Scenario.transport_ok in
  let self := BaseDpbService_init (mkDpbServiceSpec None None) in
  exists md,
    GetMetadata self (VStr "n1-standard-4") (VInt 2) [] = Return md
    /\ lookup_key "dpb_job_properties" md = Some (VStr "a=1,b=2")
    /\ lookup_key "dpb_version" md = Some (VStr "default")
    /\ "default" <> ""
    /\ (false = false ->
        lookup_key "dpb_service_version" md = Some (VStr "unknown_default")).
Proof.
  intros P self.
  apply (GetMetadata_job_properties (P := P) self (VStr "n1-standard-4") (VInt 2) []
           [("a", "1"); ("b", "2")]).
  - repeat constructor.
  - refine (bool_decide_unpack _ _). vm_compute. exact I.
Defined.

(** ** Execution jars *)

Lemma has_key_lookup {V : Type} (k : string) (d : list (string * V)) :
  has_key k d = true <-> exists v, lookup_key k d = Some v.
Proof.
  unfold has_key. destruct (lookup_key k d); split; eauto; try discriminate.
  intros [v Hv]. discriminate.
Qed.

(** X4. [GetExecutionJar] returns the jar that [JOB_JARS] registers for the
    category and the type, and raises [NotImplementedError] when there is
    none; the guard keeps the subscripts from raising [KeyError].  The yarn
    cluster replaces [JOB_JARS], so the spark examples jar of the base class
    is not available on it. *)
Theorem GetExecutionJar_registered (JOB_JARS : JOB_JARS_t)
    (job_category job_type : string) :
  (forall key, GetExecutionJar JOB_JARS job_category job_type <> JarKeyError key)
  /\ (forall path,
        GetExecutionJar JOB_JARS job_category job_type = Jar path
        <-> exists jars, lookup_key job_category JOB_JARS = Some jars
                         /\ lookup_key job_type jars = Some path)
  /\ (GetExecutionJar JOB_JARS job_category job_type = JarNotImplementedError
      <-> forall jars, lookup_key job_category JOB_JARS = Some jars ->
                       lookup_key job_type jars = None)
  /\ GetExecutionJar BaseDpbService_JOB_JARS "spark" "examples"
     = Jar "file:///usr/lib/spark/examples/jars/spark-examples.jar"
  /\ GetExecutionJar Yarn_JOB_JARS "spark" "examples" = JarNotImplementedError.
Proof.
  unfold GetExecutionJar, has_key.
  destruct (lookup_key job_category JOB_JARS) as [jars |] eqn:Hcat; simpl.
  - destruct (lookup_key job_type jars) as [path |] eqn:Htype; simpl.
    + split; [discriminate |]. split; [| split; [| split; reflexivity]].
      * intros p. split; [intros [= <-]; eauto |].
        intros (jars' & [= <-] & Hp). congruence.
      * split; [discriminate |]. intros Hnone.
        specialize (Hnone jars eq_refl). congruence.
    + split; [discriminate |]. split; [| split; [| split; reflexivity]].
      * intros p. split; [discriminate |].
        intros (jars' & [= <-] & Hp). congruence.
      * split; [| reflexivity]. intros _ jars' [= <-]. exact Htype.
  - split; [discriminate |]. split; [| split; [| split; reflexivity]].
    + intros p. split; [discriminate |]. intros (jars' & Hj & _). discriminate.
    + split; [| reflexivity]. intros _ jars' Hj. discriminate.
Qed.

(** ** More on submission *)

Lemma fold_left_conf (props : pydict) (cmd : list string) :
  fold_left (fun cmd kv => cmd ++ ["--conf"; format_kv (fst kv) (snd kv)]) props cmd
  = cmd ++ flat_map (fun kv => ["--conf"; format_kv (fst kv) (snd kv)]) props.
Proof.
  revert cmd. induction props as [| kv r IH]; intros cmd; simpl.
  - by rewrite app_nil_r.
  - rewrite IH, <- app_assoc. reflexivity.
Qed.

Section MoreSubmission.
Context {World : Type} `{P : Platform World}.

(** X5. The yarn cluster rejects every job whose type is not hadoop and
    the spark cluster every job whose type is neither pyspark nor spark,
    with [NotImplementedError] and before anything else happens; so no job
    is accepted by both. *)
Theorem unmanaged_backends_reject_job_types (a : SubmitJobArgs) (w : World) :
  (job_type a <> Some HADOOP_JOB_TYPE ->
     Yarn_SubmitJob a w = (Raise (mk_exn NotImplementedError "" None), w))
  /\ (job_type a <> Some PYSPARK_JOB_TYPE ->
      job_type a <> Some SPARK_JOB_TYPE ->
      Spark_SubmitJob a w = (Raise (mk_exn NotImplementedError "" None), w))
  /\ (Yarn_SubmitJob a w = (Raise (mk_exn NotImplementedError "" None), w)
      \/ Spark_SubmitJob a w = (Raise (mk_exn NotImplementedError "" None), w)).
Proof.
  assert (HY : job_type a <> Some HADOOP_JOB_TYPE ->
               Yarn_SubmitJob a w = (Raise (mk_exn NotImplementedError "" None), w)).
  { intros Hne. unfold Yarn_SubmitJob, Yarn_cmd_string, bind, lift.
    by rewrite bool_decide_eq_false_2. }
  assert (HS : job_type a <> Some PYSPARK_JOB_TYPE ->
               job_type a <> Some SPARK_JOB_TYPE ->
               Spark_SubmitJob a w = (Raise (mk_exn NotImplementedError "" None), w)).
  { intros Hne1 Hne2. unfold Spark_SubmitJob, Spark_cmd_string, bind, lift.
    rewrite bool_decide_eq_false_2; [reflexivity |].
    rewrite !elem_of_cons, elem_of_nil. tauto. }
  split; [exact HY | split; [exact HS |]].
  destruct (decide (job_type a = Some HADOOP_JOB_TYPE)) as [Heq | Hne].
  - right. apply HS; rewrite Heq; discriminate.
  - left. by apply HY.
Qed.

(** X6. On the spark cluster a spark job without a jar file, and a pyspark
    job without a pyspark file, fails with [AssertionError] before the
    leader is contacted; the job property flags are read first, so a
    malformed flag is reported instead. *)
Theorem Spark_SubmitJob_requires_main_file (a : SubmitJobArgs) (w : World) :
  (job_type a = Some SPARK_JOB_TYPE /\ truthy_str (jarfile a) = false
   \/ job_type a = Some PYSPARK_JOB_TYPE /\ truthy_str (pyspark_file a) = false) ->
  match merged_properties (properties a) with
  | Return _ => Spark_SubmitJob a w = (Raise (mk_exn AssertionError "" None), w)
  | Raise e => Spark_SubmitJob a w = (Raise e, w) /\ exn_cls e = ValueError
  end.
Proof.
  intros Hkind.
  destruct (merged_properties (properties a)) as [props | e] eqn:Hprops.
  - unfold Spark_SubmitJob, Spark_cmd_string, bind, lift, assert_str.
    rewrite Hprops.
    destruct Hkind as [[Ht Hf] | [Ht Hf]]; rewrite Ht, Hf; reflexivity.
  - split.
    + unfold Spark_SubmitJob, Spark_cmd_string, bind, lift. rewrite Hprops.
      destruct Hkind as [[Ht _] | [Ht _]]; rewrite Ht; reflexivity.
    + unfold merged_properties, GetJobProperties in Hprops.
      destruct (dict_of_pairs _ _) as [d | e0] eqn:Hd; simpl in Hprops; [discriminate |].
      injection Hprops as <-. eapply dict_of_pairs_raises, Hd.
Qed.

(** X7. When the leader runs the command, [SubmitJob] returns a job result
    whose run time is the time between the two clock readings around the
    remote command, in seconds, and whose pending time is 0, so that the
    wall time is the run time; the run time is not negative when the second
    reading is not before the first.  The output is saved only when
    [job_stdout_file] is given and not empty, after the clock was read; if
    saving fails, the [OSError] replaces the result. *)
Theorem run_on_leader_result (cmd : string) (out_file : option string)
    (w w0 w1 w2 : World) (t0 t1 : datetime) (stdout stderr : string) :
  datetime_now w = (t0, w0) ->
  RobustRemoteCommand cmd w0 = (Return (stdout, stderr), w1) ->
  datetime_now w1 = (t1, w2) ->
  let j := mkJobResult (Qmake (instant_us t1 - instant_us t0) 1000000) 0 in
  (truthy_str out_file = false -> run_on_leader cmd out_file w = (Return j, w2))
  /\ (forall path w3, out_file = Some path -> path <> "" ->
        write_file path stdout w2 = (None, w3) ->
        run_on_leader cmd out_file w = (Return j, w3))
  /\ (forall path msg w3, out_file = Some path -> path <> "" ->
        write_file path stdout w2 = (Some msg, w3) ->
        run_on_leader cmd out_file w = (Raise (mk_exn OSError msg None), w3))
  /\ (wall_time j == run_time j)%Q
  /\ (instant_us t0 <= instant_us t1 -> (0 <= run_time j)%Q).
Proof.
  intros Hnow0 Hcmd Hnow1 j.
  assert (Hprefix : forall k : string * string -> datetime -> M World JobResult,
    (start_time <- (fun w => let (t, w') := datetime_now w in (Return t, w')) ;;
     out <- try_except (RobustRemoteCommand cmd) RemoteCommandError
              (fun e => raise (mk_exn JobSubmissionError "" (Some e))) ;;
     end_time <- (fun w => let (t, w') := datetime_now w in (Return t, w')) ;;
     k out end_time)%py w = k (stdout, stderr) t1 w2).
  { intros k. unfold bind, try_except. by rewrite Hnow0, Hcmd, Hnow1. }
  split; [| split; [| split; [| split]]].
  - intros Hfalsy. unfold run_on_leader, bind, try_except, ret.
    rewrite Hnow0, Hcmd, Hnow1, Hfalsy. reflexivity.
  - intros path w3 -> Hpath Hwrite.
    unfold run_on_leader, bind, try_except, ret.
    rewrite Hnow0, Hcmd, Hnow1. simpl.
    destruct (String.eqb_spec path ""); [contradiction |]. simpl.
    by rewrite Hwrite.
  - intros path msg w3 -> Hpath Hwrite.
    unfold run_on_leader, bind, try_except, ret.
    rewrite Hnow0, Hcmd, Hnow1. simpl.
    destruct (String.eqb_spec path ""); [contradiction |]. simpl.
    by rewrite Hwrite.
  - unfold wall_time, j. simpl. apply Qplus_0_r_eq.
  - intros Hle. unfold j, Qle. simpl. lia.
Qed.

(** X8. In [UnmanagedDpbSparkCluster.SubmitJob] without [job_files], the
    command handed to the leader is spark-submit, [--class] and the class
    when one is given, a [--conf key=value] pair for every merged property
    in dictionary order, the main jar or pyspark file, and the job
    arguments. *)
Theorem Spark_cmd_string_full (a : SubmitJobArgs) (main : string)
    (all_properties : pydict) :
  truthy_list (job_files a) = false ->
  main <> "" ->
  (job_type a = Some SPARK_JOB_TYPE /\ jarfile a = Some main
   \/ job_type a = Some PYSPARK_JOB_TYPE /\ pyspark_file a = Some main) ->
  merged_properties (properties a) = Return all_properties ->
  Spark_cmd_string a
  = Return (join " "
      ([SPARK_SUBMIT]
       ++ (if truthy_str (classname a) then ["--class"; default "" (classname a)] else [])
       ++ flat_map (fun kv => ["--conf"; format_kv (fst kv) (snd kv)]) all_properties
       ++ [main]
       ++ default [] (job_arguments a))).
Proof.
  intros Hfiles Hmain Hkind Hprops.
  destruct main as [| c m]; [congruence |].
  unfold Spark_cmd_string.
  destruct Hkind as [[Ht Hj] | [Ht Hj]];
    rewrite Hprops, Hfiles, Ht, Hj; simpl; rewrite fold_left_conf;
    do 2 f_equal;
    destruct (truthy_str (classname a)), (job_arguments a) as [[| x l] |]; simpl;
    rewrite ?app_nil_r, <- ?app_assoc; reflexivity.
Qed.

End MoreSubmission.

Lemma unmanaged_backends_reject_job_types_witness :
  let P := Scenario.platform [] Scenario.transport_ok in
  let a := mkSubmitJobArgs None None None (Some "gs://bucket/query.sql") None None
             None None None (Some SPARKSQL_JOB_TYPE) None in
  Yarn_SubmitJob a Scenario.w0
  = (Raise (mk_exn NotImplementedError "" None), Scenario.w0)
  /\ Spark_SubmitJob a Scenario.w0
     = (Raise (mk_exn NotImplementedError "" None), Scenario.w0).
Proof.
  intros P a.
  destruct (unmanaged_backends_reject_job_types (P := P) a Scenario.w0)
    as (HY & HS & _).
  split; [apply HY | apply HS]; discriminate.
Defined.

Lemma Spark_SubmitJob_requires_main_file_witness :
  let P := Scenario.platform [] Scenario.transport_ok in
  let a := mkSubmitJobArgs None (Some "org.example.Main") (Some "job.py") None
             None None None None None (Some SPARK_JOB_TYPE) None in
  Spark_SubmitJob a Scenario.w0
  = (Raise (mk_exn AssertionError "" None), Scenario.w0).
Proof.
  intros P a.
  apply (Spark_SubmitJob_requires_main_file (P := P) a Scenario.w0).
  left. split; reflexivity.
Defined.

Lemma run_on_leader_result_witness :
  let P := Scenario.platform [] Scenario.transport_ok in
  run_on_leader "hadoop version" (Some "/tmp/out.txt") Scenario.w0
  = (Return (mkJobResult (Qmake 3000000 1000000) 0),
     Scenario.mkWorld 3000000 ["hadoop version"] [("/tmp/out.txt", "ok")] 0).
Proof.
  intros P.
  apply (proj1 (proj2 (run_on_leader_result (P := P) "hadoop version"
                         (Some "/tmp/out.txt") Scenario.w0 Scenario.w0
                         (Scenario.mkWorld 3000000 ["hadoop version"] [] 0)
                         (Scenario.mkWorld 3000000 ["hadoop version"] [] 0)
                         (mk_datetime 0) (mk_datetime 3000000) "ok" ""
                         eq_refl eq_refl eq_refl))
           "/tmp/out.txt"); [reflexivity | discriminate | reflexivity].
Defined.

Lemma Spark_cmd_string_full_witness :
  let P := Scenario.platform ["spark.executor.memory=4g"] Scenario.transport_ok in
  Spark_cmd_string
    (mkSubmitJobArgs None None (Some "job.py") None None None (Some ["10"])
       None None (Some PYSPARK_JOB_TYPE) (Some [("spark.ui.enabled", "false")]))
  = Return ("/opt/pkb/spark/bin/spark-submit "
            +:+ "--conf spark.executor.memory=4g --conf spark.ui.enabled=false "
            +:+ "job.py 10").
Proof.
  intros P.
  exact (Spark_cmd_string_full (P := P)
           (mkSubmitJobArgs None None (Some "job.py") None None None (Some ["10"])
              None None (Some PYSPARK_JOB_TYPE) (Some [("spark.ui.enabled", "false")]))
           "job.py"
           [("spark.executor.memory", "4g"); ("spark.ui.enabled", "false")]
           eq_refl ltac:(discriminate) (or_intror (conj eq_refl eq_refl)) eq_refl).
Defined.

(** * Properties of the package modules and of the read script *)

Section AwsCliFacts.
Context {World : Type} `{VM : VirtualMachine World}.

(** X9. [awscli.YumInstall] first asks yum for the package.  When that
    command succeeds nothing else is run; when it fails with a
    [RemoteCommandError], the error is dropped and the outcome is that of
    [Install], run in the world the probe left; any other exception of the
    probe is raised as it is. *)
Theorem YumInstall_probe (w w1 : World) :
  (forall out, RemoteCommand "yum list installed awscli" w = (Return out, w1) ->
     AwsCli.YumInstall w = (Return tt, w1))
  /\ (forall e, RemoteCommand "yum list installed awscli" w = (Raise e, w1) ->
        isinstance e RemoteCommandError = true ->
        AwsCli.YumInstall w = AwsCli.Install w1)
  /\ (forall e, RemoteCommand "yum list installed awscli" w = (Raise e, w1) ->
        isinstance e RemoteCommandError = false ->
        AwsCli.YumInstall w = (Raise e, w1)).
Proof.
  unfold AwsCli.YumInstall, try_except, bind, ret.
  repeat split; intros x Hprobe; rewrite Hprobe; try reflexivity;
    intros ->; reflexivity.
Qed.

End AwsCliFacts.

(** A machine that keeps the list of what it was asked to do; [yum list]
    fails on it because the package is missing. *)
Lemma YumInstall_probe_witness :
  let VM := {| RemoteCommand := fun cmd (w : list string) =>
                 if String.prefix "yum list" cmd then
                   (Raise (mk_exn RemoteCommandError "Error: No matching Packages" None),
                    w ++ [cmd])
                 else (Return ("", ""), w ++ [cmd]);
               InstallPackages := fun pkg (w : list string) =>
                 (Return tt, w ++ ["install " +:+ pkg]) |} in
  AwsCli.YumInstall []
  = (Return tt,
     ["yum list installed awscli"; "install python3-pip";
      "sudo pip3 install 'awscli==1.18.107' --force-reinstall"]).
Proof.
  intros VM.
  exact (proj1 (proj2 (YumInstall_probe (VM := VM) [] ["yum list installed awscli"]))
           (mk_exn RemoteCommandError "Error: No matching Packages" None)
           eq_refl eq_refl).
Defined.

Module ReadScriptFacts.
Import ReadScript.

Lemma prefix_app (p r : string) : String.prefix p (p +:+ r) = true.
Proof.
  induction p as [| c p IH]; simpl; [by destruct r |].
  destruct (ascii_dec c c); [exact IH | contradiction].
Qed.

Lemma replace_from_skip (p old new rest : string) :
  replace_from (String.length p) old new (p +:+ rest) = replace_from 0 old new rest.
Proof. induction p as [| c p IH]; simpl; [by destruct rest | exact IH]. Qed.

(** An occurrence at the front is replaced, and the scan goes on behind
    it. *)
Lemma replace_front (old new rest : string) :
  old <> "" ->
  replace old new (old +:+ rest) = new +:+ replace old new rest.
Proof.
  intros Hne. destruct old as [| c old']; [contradiction |].
  unfold replace.
  change (replace_from 0 (String c old') new (String c old' +:+ rest))
    with (if String.prefix (String c old') (String c old' +:+ rest)
          then new +:+ replace_from (String.length (String c old') - 1)
                         (String c old') new (old' +:+ rest)
          else String c (replace_from 0 (String c old') new (old' +:+ rest))).
  rewrite prefix_app. f_equal.
  replace (String.length (String c old') - 1)%nat with (String.length old')
    by (simpl; lia).
  apply replace_from_skip.
Qed.

(** A string without an occurrence is left as it is. *)
Lemma replace_absent (old new s : string) :
  contains old s = false -> replace old new s = s.
Proof.
  unfold replace. induction s as [| c r IH]; intros Hno; [reflexivity |].
  change (contains old (String c r))
    with (String.prefix old (String c r) || contains old r) in Hno.
  apply orb_false_iff in Hno as [Hprefix Hrest].
  change (replace_from 0 old new (String c r))
    with (if String.prefix old (String c r)
          then new +:+ replace_from (String.length old - 1) old new r
          else String c (replace_from 0 old new r)).
  rewrite Hprefix. f_equal. by apply IH.
Qed.

(** X10. With a non-empty mount point, [Open] opens the local file whose
    name is the object name with [gs://] replaced by the mount point: the
    object [gs://<rest>], where [<rest>] holds no further [gs://], is read
    from [<mountpoint><rest>], which for the mount point that the gcsfuse
    benchmark passes is below the directory where gcsfuse is mounted.
    Without a mount point, or with an empty one, the object is read through
    GFile under its own name. *)
Theorem Open_file_name (rest : string) (mp : option string) :
  (forall m, mp = Some m -> m <> "" -> contains "gs://" rest = false ->
     Open (mkObjectReader ("gs://" +:+ rest) mp) = LocalFile (m +:+ rest))
  /\ (contains "gs://" rest = false ->
      Open (mkObjectReader ("gs://" +:+ rest) (Some Gcsfuse.BENCHMARK_MOUNTPOINT))
      = LocalFile (Gcsfuse.MNT +:+ "/" +:+ rest))
  /\ (truthy_str mp = false ->
      forall name, Open (mkObjectReader name mp) = GFile name).
Proof.
  assert (Hgen : forall m, m <> "" -> contains "gs://" rest = false ->
            Open (mkObjectReader ("gs://" +:+ rest) (Some m)) = LocalFile (m +:+ rest)).
  { intros m Hm Hrest. unfold Open.
    cbn [mountpoint object_name truthy_str default].
    destruct (String.eqb_spec m ""); [contradiction |].
    cbn [negb]. f_equal. change (id m) with m.
    rewrite (replace_front "gs://" m rest) by discriminate.
    by rewrite replace_absent. }
  split; [| split].
  - intros m -> Hm Hrest. by apply Hgen.
  - intros Hrest. rewrite Hgen; [reflexivity | discriminate | exact Hrest].
  - intros Hfalsy name. unfold Open. simpl. by rewrite Hfalsy.
Qed.

Lemma Open_file_name_witness :
  Open (mkObjectReader "gs://gcsfuse-benchmark/10M/file_1" (Some "/gcs/"))
  = LocalFile "/gcs/gcsfuse-benchmark/10M/file_1"
  /\ Open (mkObjectReader "gs://gcsfuse-benchmark/10M/file_1" None)
     = GFile "gs://gcsfuse-benchmark/10M/file_1".
Proof.
  split.
  - exact (proj1 (proj2 (Open_file_name "gcsfuse-benchmark/10M/file_1" None)) eq_refl).
  - exact (proj2 (proj2 (Open_file_name "" None)) eq_refl
             "gs://gcsfuse-benchmark/10M/file_1").
Defined.

(** Every occurrence is replaced, not only the scheme in front. *)
Example Open_replaces_all :
  Open (mkObjectReader "gs://bucket/copy-of-gs://other" (Some "/gcs/"))
  = LocalFile "/gcs/bucket/copy-of-/gcs/other".
Proof. reflexivity. Qed.

Lemma ReadFull_loop_total (chunk : nat) :
  (0 < chunk)%nat ->
  forall (k : nat) (f : list Byte.byte) (bytes_read : nat),
    (length f <= k * chunk)%nat ->
    ReadFull_loop chunk (S k) f bytes_read = Some (bytes_read + length f)%nat.
Proof.
  intros Hpos. induction k as [| k IH]; intros f acc Hlen.
  - destruct f; [| simpl in Hlen; lia].
    cbn [ReadFull_loop]. rewrite take_nil. simpl. f_equal. lia.
  - destruct f as [| b f].
    + cbn [ReadFull_loop]. rewrite take_nil. simpl. f_equal. lia.
    + change (ReadFull_loop chunk (S (S k)) (b :: f) acc)
        with (match take chunk (b :: f) with
              | _ :: _ => ReadFull_loop chunk (S k) (drop chunk (b :: f))
                            (acc + length (take chunk (b :: f)))
              | [] => Some acc
              end).
      destruct (take chunk (b :: f)) as [| x data] eqn:Htake.
      * destruct chunk; [lia | discriminate].
      * rewrite <- Htake. rewrite IH.
        -- f_equal. rewrite length_take, length_drop. lia.
        -- rewrite length_drop. simpl length in *. nia.
Qed.

(** X11. [ReadFull] returns the size of the file: reading in chunks of two
    mebibytes, it stops at the first empty read and has then counted every
    byte once.  A file of at most [k] chunks takes at most [k + 1] reads. *)
Theorem ReadFull_size (contents : list Byte.byte) (k : nat) :
  (length contents <= k * CHUNK)%nat ->
  ReadFull (S k) contents = Some (length contents).
Proof.
  intros Hlen. unfold ReadFull.
  rewrite ReadFull_loop_total; [reflexivity | unfold CHUNK; lia | exact Hlen].
Qed.

Lemma ReadFull_size_witness :
  ReadFull 2 [Byte.x67; Byte.x63; Byte.x73] = Some 3%nat.
Proof.
  apply (ReadFull_size [Byte.x67; Byte.x63; Byte.x73] 1).
  unfold CHUNK. simpl length. lia.
Defined.

Lemma split_on_line (sep : ascii) (n rest : string) :
  count_char sep n = 0%nat ->
  split_on sep (n +:+ String sep rest) = n :: split_on sep rest.
Proof.
  induction n as [| c n IH]; simpl; intros Hcount.
  - by rewrite Ascii.eqb_refl.
  - destruct (Ascii.eqb c sep); [discriminate |].
    by rewrite IH.
Qed.

Lemma append_empty_r (s : string) : s +:+ "" = s.
Proof.
  induction s as [| c s IH]; [reflexivity |].
  change (String c s +:+ "") with (String c (s +:+ "")). by rewrite IH.
Qed.

Lemma append_line (n r : string) (sep : ascii) :
  (n +:+ String sep "") +:+ r = n +:+ String sep r.
Proof.
  induction n as [| c n IH]; [reflexivity |].
  change (String c ((n +:+ String sep "") +:+ r) = String c (n +:+ String sep r)).
  by rewrite IH.
Qed.

Lemma concat_empty_cons (x : string) (l : list string) :
  String.concat "" (x :: l) = x +:+ String.concat "" l.
Proof.
  destruct l; [| reflexivity].
  change (String.concat "" [x]) with x. symmetry. apply append_empty_r.
Qed.

(** X12. [ReadBenchmark] makes one reader per listed object, in the order
    of the listing: for object names that are not empty and hold no
    newline, written one per line with a newline after each, the readers
    are the names, each with the mount point flag; the empty piece after
    the last newline makes no reader. *)
Theorem readers_of_listing (names : list string) (mp : option string) :
  Forall (fun n => n <> "" /\ count_char "010" n = 0%nat) names ->
  readers_of (String.concat "" (map (fun n => n +:+ String "010" "") names)) mp
  = map (fun o => mkObjectReader o mp) names.
Proof.
  intros Hnames. unfold readers_of. f_equal.
  induction Hnames as [| n names [Hne Hnl] _ IH]; [reflexivity |].
  rewrite map_cons, concat_empty_cons, append_line, split_on_line by exact Hnl.
  simpl. destruct (String.eqb_spec n ""); [contradiction |]. simpl.
  by rewrite IH.
Qed.

Lemma readers_of_listing_witness :
  readers_of "gs://b/1
gs://b/2
" (Some "/gcs/")
  = [mkObjectReader "gs://b/1" (Some "/gcs/"); mkObjectReader "gs://b/2" (Some "/gcs/")].
Proof.
  apply (readers_of_listing ["gs://b/1"; "gs://b/2"] (Some "/gcs/")).
  repeat constructor; discriminate.
Defined.

End ReadScriptFacts.

(** * Properties of relational_db.py *)

Module DbFacts.
Import Db.

Lemma lookup_key_filter {V : Type} (p : string -> bool) (k : string)
    (d : list (string * V)) :
  lookup_key k (List.filter (fun item => p (fst item)) d)
  = if p k then lookup_key k d else None.
Proof.
  induction d as [| [k1 v1] r IH]; simpl; [by destruct (p k) |].
  destruct (p k1) eqn:Hp1; simpl.
  - destruct (String.eqb_spec k k1) as [-> | Hne]; [by rewrite Hp1 | exact IH].
  - rewrite IH. destruct (String.eqb_spec k k1) as [-> | Hne]; [by rewrite Hp1 |].
    reflexivity.
Qed.

Section Boot.
Context {World : Type} `{P : Platform World} {V : Type}.

(** X13. [VmsToBoot] keeps the groups named clients and default as they
    are, keeps the group named servers only when the database is not a
    managed one, and drops every other group. *)
Theorem VmsToBoot_groups (vm_groups : list (string * V)) (name : string) :
  (name = "clients" \/ name = "default" ->
     lookup_key name (VmsToBoot vm_groups) = lookup_key name vm_groups)
  /\ (name = "servers" ->
        lookup_key name (VmsToBoot vm_groups)
        = if FLAGS_use_managed_db then None else lookup_key name vm_groups)
  /\ (name <> "clients" -> name <> "default" -> name <> "servers" ->
        lookup_key name (VmsToBoot vm_groups) = None).
Proof.
  unfold VmsToBoot.
  rewrite (lookup_key_filter
             (fun n => String.eqb n "clients" || String.eqb n "default"
                       || (negb FLAGS_use_managed_db && String.eqb n "servers"))).
  split; [| split].
  - intros [-> | ->]; reflexivity.
  - intros ->. simpl. by destruct FLAGS_use_managed_db.
  - intros H1 H2 H3.
    destruct (String.eqb_spec name "clients"); [contradiction |].
    destruct (String.eqb_spec name "default"); [contradiction |].
    destruct (String.eqb_spec name "servers"); [contradiction |].
    by destruct FLAGS_use_managed_db.
Qed.

End Boot.

Section Connection.
Context {World : Type} `{P : Platform World}.

(** X14. An unmanaged database cannot be highly available: [__init__]
    raises [UnsupportedError].  Otherwise an unmanaged database starts with
    the empty endpoint and the credentials root and perfkitbenchmarker,
    whatever the spec said, so its MySQL connection strings are fixed and
    carry port 3306.  A managed database keeps the credentials of the spec
    and has no endpoint yet: its connection string is available for
    localhost only, and carries no port. *)
Theorem init_connection_strings (relational_db_spec : RelationalDbSpec) :
  (FLAGS_use_managed_db = false -> high_availability relational_db_spec = true ->
     exists msg, BaseRelationalDb_init relational_db_spec = Err (UnsupportedError msg))
  /\ (FLAGS_use_managed_db = false -> high_availability relational_db_spec = false ->
      exists self,
        BaseRelationalDb_init relational_db_spec = Ok self
        /\ MakeMysqlConnectionString self true
           = Ok "-h localhost -P 3306 -u root -pperfkitbenchmarker"
        /\ MakeMysqlConnectionString self false
           = Ok "-h  -P 3306 -u root -pperfkitbenchmarker")
  /\ (FLAGS_use_managed_db = true ->
      exists self,
        BaseRelationalDb_init relational_db_spec = Ok self
        /\ MakeMysqlConnectionString self false
           = Err (RelationalDbPropertyNotSet "endpoint not set")
        /\ MakeSysbenchConnectionString self
           = Err (RelationalDbPropertyNotSet "endpoint not set")
        /\ MakeMysqlConnectionString self true
           = Ok ("-h localhost -u "
                 +:+ str_of (database_username relational_db_spec)
                 +:+ " -p" +:+ str_of (database_password relational_db_spec))).
Proof.
  unfold BaseRelationalDb_init. split; [| split].
  - intros -> ->. simpl. eauto.
  - intros -> ->. simpl. eexists. repeat split.
  - intros ->. simpl. eexists. repeat split.
Qed.

End Connection.

Lemma prefix_app_l (p q s : string) :
  String.prefix (p +:+ q) s = true -> String.prefix p s = true.
Proof.
  revert s. induction p as [| c p IH]; intros s; [by destruct s |].
  change (String c p +:+ q) with (String c (p +:+ q)).
  destruct s as [| d s]; simpl; [discriminate |].
  destruct (ascii_dec c d); [apply IH | discriminate].
Qed.

(** X15. Every engine version for which the server side finds a MySQL
    package (5.6, 5.7 or 8.0, alone or followed by a dot and more) is one
    for which [_InstallMySQLClient] finds a client package.  The converse
    fails: the client side takes any version that begins with 5.7 or 8.0,
    such as 5.70, which the server side rejects. *)
Theorem server_version_has_client (version name : string) :
  server_mysql_name version = Ok name ->
  (exists client_name,
      client_mysql_name version = Ok client_name
      /\ (client_name = "mysqlclient56" \/ client_name = "mysqlclient"))
  /\ (name = "mysql56" \/ name = "mysql57" \/ name = "mysql80")
  /\ client_mysql_name "5.70" = Ok "mysqlclient"
  /\ (exists msg, server_mysql_name "5.70" = Err (PyException msg)).
Proof.
  unfold server_mysql_name, client_mysql_name. intros Hserver.
  split; [| split; [| split; [reflexivity | simpl; eauto]]].
  - destruct (String.eqb version "5.6" || String.prefix "5.6." version); [eauto |].
    destruct (String.eqb version "5.7") eqn:H57; [simpl; eauto |].
    destruct (String.prefix "5.7." version) eqn:H57p.
    { rewrite (prefix_app_l "5.7" "." version H57p). simpl. eauto. }
    destruct (String.eqb version "8.0") eqn:H80.
    { simpl. rewrite orb_true_r. simpl. eauto. }
    destruct (String.prefix "8.0." version) eqn:H80p.
    { rewrite (prefix_app_l "8.0" "." version H80p), !orb_true_r. eauto. }
    simpl in Hserver. discriminate.
  - destruct (_ || _); [injection Hserver as <-; auto |].
    destruct (_ || _); [injection Hserver as <-; auto |].
    destruct (_ || _); [injection Hserver as <-; auto | discriminate].
Qed.

Lemma server_version_has_client_witness :
  (exists client_name,
      client_mysql_name "8.0.28" = Ok client_name
      /\ (client_name = "mysqlclient56" \/ client_name = "mysqlclient")).
Proof.
  exact (proj1 (server_version_has_client "8.0.28" "mysql80" eq_refl)).
Defined.

End DbFacts.

Lemma VmsToBoot_groups_witness :
  let P := DbScenario.platform true [] in
  let groups := [("servers", 1%nat); ("clients", 2%nat); ("replicas", 3%nat)] in
  lookup_key "clients" (Db.VmsToBoot groups) = Some 2%nat
  /\ lookup_key "servers" (Db.VmsToBoot groups) = None
  /\ lookup_key "replicas" (Db.VmsToBoot groups) = None.
Proof.
  intros P groups.
  split; [| split].
  - exact (proj1 (DbFacts.VmsToBoot_groups (P := P) groups "clients")
             (or_introl eq_refl)).
  - exact (proj1 (proj2 (DbFacts.VmsToBoot_groups (P := P) groups "servers")) eq_refl).
  - apply (proj2 (proj2 (DbFacts.VmsToBoot_groups (P := P) groups "replicas")));
      discriminate.
Defined.

Lemma init_connection_strings_witness :
  let P := DbScenario.platform false [] in
  exists self,
    Db.BaseRelationalDb_init DbScenario.spec57 = Db.Ok self
    /\ Db.MakeMysqlConnectionString self true
       = Db.Ok "-h localhost -P 3306 -u root -pperfkitbenchmarker"
    /\ Db.MakeMysqlConnectionString self false
       = Db.Ok "-h  -P 3306 -u root -pperfkitbenchmarker".
Proof.
  intros P.
  exact (proj1 (proj2 (DbFacts.init_connection_strings (P := P) DbScenario.spec57))
           eq_refl eq_refl).
Defined.

Module DbFlagFacts.
Import Db.

Section Flags.
Context {World : Type} `{P : Platform World}.

Lemma format_one_argument (conn : string) :
  percent "mysql %s -e 'SET %s;'" [conn]
  = Err (PyTypeError "not enough arguments for format string").
Proof. reflexivity. Qed.

(** X16. [_ApplyMySqlFlags] cannot apply a flag: with a non-empty
    [db_flags], building the command of the first flag already fails, with
    [TypeError] when the database has an endpoint (the format holds two
    [%s] and gets one argument) and with [RelationalDbPropertyNotSet] when
    it has none, and no command is issued.  So [_ApplyDbFlags], and with it
    [_PostCreate], fails for every database of the base class whenever
    [db_flags] is not empty, and does nothing when it is empty. *)
Theorem ApplyDbFlags_never_applies (self : BaseRelationalDb)
    (class_name : string) (w : World) :
  (FLAGS_db_flags <> [] ->
     (forall host, _endpoint self = Some host ->
        _ApplyMySqlFlags self w
        = (Err (PyTypeError "not enough arguments for format string"), w))
     /\ (_endpoint self = None ->
         _ApplyMySqlFlags self w
         = (Err (RelationalDbPropertyNotSet "endpoint not set"), w))
     /\ exists e, _PostCreate self class_name w = (Err e, w))
  /\ (FLAGS_db_flags = [] ->
      _ApplyMySqlFlags self w = (Ok tt, w)
      /\ _PostCreate self class_name w = (Ok tt, w)).
Proof.
  assert (Hmysql : FLAGS_db_flags <> [] ->
    _ApplyMySqlFlags self w
    = match _endpoint self with
      | Some _ => (Err (PyTypeError "not enough arguments for format string"), w)
      | None => (Err (RelationalDbPropertyNotSet "endpoint not set"), w)
      end).
  { intros Hne. unfold _ApplyMySqlFlags.
    destruct FLAGS_db_flags as [| flag rest]; [contradiction |].
    cbn [apply_mysql_flags]. unfold dbind, dlift, MakeMysqlConnectionString, endpoint.
    cbn [negb]. destruct (_endpoint self) as [host |]; [| reflexivity].
    by rewrite format_one_argument. }
  split.
  - intros Hne. specialize (Hmysql Hne). split; [| split].
    + intros host Hhost. by rewrite Hmysql, Hhost.
    + intros Hnone. by rewrite Hmysql, Hnone.
    + unfold _PostCreate, _ApplyDbFlags.
      destruct FLAGS_db_flags as [| flag rest] eqn:Hflags; [contradiction |].
      destruct (is_managed_db self); [eexists; reflexivity |].
      destruct (String.eqb (engine (spec self)) MYSQL); [| eexists; reflexivity].
      rewrite Hmysql. destruct (_endpoint self); eexists; reflexivity.
  - intros Hempty. unfold _PostCreate, _ApplyDbFlags, _ApplyMySqlFlags.
    by rewrite Hempty.
Qed.

End Flags.

(** X17. [SetVms] takes the client machine from the group named clients
    when there is one, and from the group named default otherwise, the
    first machine of the group in both cases; afterwards the [client_vm]
    property returns it.  Without either group it raises [KeyError] for
    default, and with an empty group [IndexError], and leaves the object as
    it was. *)
Theorem SetVms_client (self : BaseRelationalDb)
    (vm_groups : list (string * list VM)) :
  (forall vm rest, lookup_key "clients" vm_groups = Some (vm :: rest) ->
     client_vm (snd (SetVms self vm_groups)) = Ok vm)
  /\ (forall vm rest, lookup_key "clients" vm_groups = None ->
        lookup_key "default" vm_groups = Some (vm :: rest) ->
        client_vm (snd (SetVms self vm_groups)) = Ok vm)
  /\ (lookup_key "clients" vm_groups = None ->
      lookup_key "default" vm_groups = None ->
      SetVms self vm_groups = (Err (PyKeyError "default"), self))
  /\ (lookup_key "clients" vm_groups = Some [] ->
      SetVms self vm_groups = (Err (PyIndexError "list index out of range"), self)).
Proof.
  assert (Htail : forall vm group rest,
    lookup_key (if has_key "clients" vm_groups then "clients" else "default") vm_groups
    = Some group ->
    group = vm :: rest ->
    client_vm (snd (SetVms self vm_groups)) = Ok vm).
  { intros vm group rest Hgroup ->. unfold SetVms, subscript. rewrite Hgroup.
    cbn [first].
    destruct (negb (is_managed_db (set_client_vm self vm))
              && has_key "servers" vm_groups); [| reflexivity].
    destruct (lookup_key "servers" vm_groups) as [[| server others] |];
      try reflexivity.
    cbn [first].
    destruct (innodb_buffer_pool_size (set_server_vm (set_client_vm self vm) server))
      as [size |]; [| reflexivity].
    destruct (negb (truthy_int size)); reflexivity. }
  split; [| split; [| split]].
  - intros vm rest Hc. apply (Htail vm (vm :: rest) rest); [| reflexivity].
    unfold has_key. rewrite Hc. exact Hc.
  - intros vm rest Hc Hd. apply (Htail vm (vm :: rest) rest); [| reflexivity].
    unfold has_key. rewrite Hc. exact Hd.
  - intros Hc Hd. unfold SetVms, subscript, has_key. by rewrite Hc, Hd.
  - intros Hc. unfold SetVms, subscript, has_key. rewrite Hc. cbn iota.
    by rewrite Hc.
Qed.


Section Ready.
Context {World : Type} `{P : Platform World}.

(** X19. [_IsReadyUnmanaged] refuses a managed database, an engine version
    other than 5.6, 5.7, 8.0 and their dotted extensions, and a database
    without server machine, each time before any command is run.
    Otherwise it asks the server for the status of the MySQL service, and
    its result is true (in the sense of Python's truth value) exactly when
    the command printed something on standard output and nothing on
    standard error. *)
Theorem IsReadyUnmanaged_result (self : BaseRelationalDb) (w : World) :
  (is_managed_db self = true ->
     exists msg, _IsReadyUnmanaged self w = (Err (PyException msg), w))
  /\ (forall e, is_managed_db self = false ->
        server_mysql_name (engine_version (spec self)) = Err e ->
        _IsReadyUnmanaged self w = (Err e, w))
  /\ (forall name, is_managed_db self = false ->
        server_mysql_name (engine_version (spec self)) = Ok name ->
        _server_vm self = None ->
        _IsReadyUnmanaged self w
        = (Err (RelationalDbPropertyNotSet "server_vm is not set"), w))
  /\ (forall name vm stdout stderr w1,
        is_managed_db self = false ->
        server_mysql_name (engine_version (spec self)) = Ok name ->
        _server_vm self = Some vm ->
        RemoteCommand vm ("sudo service " +:+ GetServiceName vm name +:+ " status") w
        = (Ok (stdout, stderr), w1) ->
        exists v, _IsReadyUnmanaged self w = (Ok v, w1)
                  /\ (truthy_val v = true <-> stdout <> "" /\ stderr = "")).
Proof.
  unfold _IsReadyUnmanaged. split; [| split; [| split]].
  - intros ->. eexists. reflexivity.
  - intros e -> He. unfold dbind, dlift. by rewrite He.
  - intros name -> Hname Hvm. unfold dbind, dlift, server_vm. by rewrite Hname, Hvm.
  - intros name vm stdout stderr w1 -> Hname Hvm Hrun.
    unfold dbind, dlift, dret, server_vm. rewrite Hname, Hvm, Hrun. simpl.
    eexists. split; [reflexivity |].
    destruct (String.eqb_spec stdout "") as [-> | Hout]; simpl.
    + split; [discriminate | intros [Hcontra _]; contradiction].
    + destruct (String.eqb_spec stderr "") as [-> | Herr]; simpl.
      * split; [intros _; by split | reflexivity].
      * split; [discriminate | intros [_ Hcontra]; contradiction].
Qed.

End Ready.

Lemma get_char_in (s : string) :
  forall (n : nat) (c : ascii), String.get n s = Some c -> char_in c s = true.
Proof.
  induction s as [| c' s IH]; intros n c Hget; [discriminate |].
  simpl. destruct n as [| n]; simpl in Hget.
  - injection Hget as ->. by rewrite Ascii.eqb_refl.
  - rewrite (IH n c Hget). apply orb_true_r.
Qed.

Lemma get_in_range (s : string) :
  forall n : nat, (n < String.length s)%nat -> exists c, String.get n s = Some c.
Proof.
  induction s as [| c' s IH]; intros n Hn; simpl in Hn; [lia |].
  destruct n as [| n]; simpl; [eauto |]. apply IH. lia.
Qed.

(** [random.choice] returns an element of a non-empty sequence. *)
Lemma choice_in (seq : string) (draw : nat) :
  seq <> "" -> char_in (choice seq draw) seq = true.
Proof.
  intros Hne. unfold choice.
  assert (Hlen : (0 < String.length seq)%nat) by (destruct seq; [contradiction | simpl; lia]).
  destruct (get_in_range seq (draw mod String.length seq)) as [c Hc].
  { apply Nat.mod_upper_bound. lia. }
  rewrite Hc. eapply get_char_in, Hc.
Qed.

(** X20. A generated database password has 13 characters: a lower-case
    letter, an upper-case letter, a digit, the first eight hexadecimal
    digits of a random UUID, a hyphen, and the ninth digit of the UUID.
    The hyphen is always there, at index 11. *)
Theorem GenerateRandomDbPassword_shape (draw1 draw2 draw3 : nat) (uuid_hex : string) :
  String.length uuid_hex = 32%nat ->
  let password := GenerateRandomDbPassword draw1 draw2 draw3 uuid_hex in
  String.length password = 13%nat
  /\ (exists c1 c2 c3,
        password = String c1 (String c2 (String c3
                     (String.substring 0 8 uuid_hex +:+ "-"
                      +:+ String.substring 8 1 uuid_hex)))
        /\ char_in c1 ascii_lowercase = true
        /\ char_in c2 ascii_uppercase = true
        /\ char_in c3 digits = true)
  /\ String.get 11 password = Some "-"%char.
Proof.
  intros Hlen password. subst password. unfold GenerateRandomDbPassword.
  pose proof (choice_in ascii_lowercase draw1 ltac:(discriminate)) as H1.
  pose proof (choice_in ascii_uppercase draw2 ltac:(discriminate)) as H2.
  pose proof (choice_in digits draw3 ltac:(discriminate)) as H3.
  generalize dependent (choice ascii_lowercase draw1). intros c1 H1.
  generalize dependent (choice ascii_uppercase draw2). intros c2 H2.
  generalize dependent (choice digits draw3). intros c3 H3.
  do 32 (destruct uuid_hex as [| ? uuid_hex]; [discriminate |]).
  destruct uuid_hex; [| discriminate].
  split; [reflexivity |]. split; [| reflexivity].
  exists c1, c2, c3. repeat split; assumption.
Qed.

End DbFlagFacts.

Lemma ApplyDbFlags_never_applies_witness :
  let P := DbScenario.platform false ["max_connections=100"] in
  let self := Db.mkDb DbScenario.spec57 false (Some "10.0.0.2") None None None
                (Some None) (Some 1000) in
  Db._ApplyMySqlFlags self []
  = (Db.Err (Db.PyTypeError "not enough arguments for format string"), []).
Proof.
  intros P self.
  apply (proj1 (proj1 (DbFlagFacts.ApplyDbFlags_never_applies (P := P) self
                         "BaseRelationalDb" [])
                  ltac:(discriminate)) "10.0.0.2").
  reflexivity.
Defined.

Lemma SetVms_client_witness :
  let self := Db.mkDb DbScenario.spec57 true None None None None None None in
  Db.client_vm (snd (Db.SetVms self
                       [("default", [DbScenario.server]);
                        ("clients", [DbScenario.client])]))
  = Db.Ok DbScenario.client.
Proof.
  intros self.
  apply (proj1 (DbFlagFacts.SetVms_client self
                  [("default", [DbScenario.server]); ("clients", [DbScenario.client])])
           DbScenario.client []).
  reflexivity.
Defined.


(** An unmanaged database without a servers group gets no server. *)
Example SetVms_without_servers :
  let self := Db.mkDb DbScenario.spec57 false (Some "") None None None
                (Some None) (Some 1000) in
  Db.SetVms self [("default", [DbScenario.client])]
  = (Db.Ok tt, Db.set_client_vm self DbScenario.client)
  /\ Db.server_vm (snd (Db.SetVms self [("default", [DbScenario.client])]))
     = Db.Err (Db.RelationalDbPropertyNotSet "server_vm is not set").
Proof. split; reflexivity. Qed.

Lemma IsReadyUnmanaged_result_witness :
  let P := DbScenario.platform false [] in
  let self := Db.mkDb DbScenario.spec57 false (Some "") None None
                (Some DbScenario.server) (Some None) (Some 1000) in
  exists v, Db._IsReadyUnmanaged self []
            = (Db.Ok v, ["server$ sudo service mysql57 status"])
            /\ (truthy_val v = true <-> "mysql.service active" <> "" /\ "" = "").
Proof.
  intros P self.
  apply (proj2 (proj2 (proj2 (DbFlagFacts.IsReadyUnmanaged_result (P := P) self [])))
           "mysql57" DbScenario.server "mysql.service active" "");
    reflexivity.
Defined.

Lemma GenerateRandomDbPassword_shape_witness :
  Db.GenerateRandomDbPassword 30 3 17 "0f8fad5bd9cb469fa16570867728950e"
  = "eD70f8fad5b-d".
Proof.
  destruct (DbFlagFacts.GenerateRandomDbPassword_shape 30 3 17
              "0f8fad5bd9cb469fa16570867728950e" eq_refl) as (_ & _ & _).
  reflexivity.
Defined.

Section CopyBackends.
Context {World : Type} `{P : Platform World}.

(** X21. A distributed copy needs a backend that takes hadoop jobs.  On
    the unmanaged spark cluster it raises [NotImplementedError] before
    anything is sent; on the unmanaged yarn cluster, when the job property
    flags are well formed, it runs the hadoop command with the class
    [org.apache.hadoop.tools.DistCp], the merged properties, the source and
    the destination on the leader, and saves no output. *)
Theorem DistributedCopy_backends (source destination : string)
    (props : option pydict) (w : World) :
  DistributedCopy UnmanagedDpbSparkCluster source destination props w
  = (Raise (mk_exn NotImplementedError "" None), w)
  /\ (forall merged, merged_properties props = Return merged ->
        DistributedCopy UnmanagedDpbServiceYarnCluster source destination props w
        = run_on_leader
            (join " "
               ([HADOOP_CMD; "org.apache.hadoop.tools.DistCp"]
                ++ map (fun kv => "-D" +:+ format_kv (fst kv) (snd kv)) merged
                ++ [source; destination]))
            None w).
Proof.
  split; [reflexivity |].
  intros merged Hmerged.
  unfold DistributedCopy, UnmanagedDpbServiceYarnCluster. cbn [SubmitJob].
  unfold Yarn_SubmitJob, Yarn_cmd_string, bind, lift.
  cbn [job_type properties jarfile classname job_arguments job_stdout_file].
  rewrite Hmerged. reflexivity.
Qed.

End CopyBackends.

Lemma DistributedCopy_backends_witness :
  let P := Scenario.platform ["mapreduce.job.maps=8"] Scenario.transport_ok in
  DistributedCopy UnmanagedDpbServiceYarnCluster "gs://src/data" "hdfs:///data"
                  None Scenario.w0
  = (Return (mkJobResult (Qmake 3000000 1000000) 0),
     Scenario.mkWorld 3000000
       ["/opt/pkb/hadoop/bin/hadoop org.apache.hadoop.tools.DistCp "
        +:+ "-Dmapreduce.job.maps=8 gs://src/data hdfs:///data"] [] 0).
Proof.
  intros P.
  exact (proj2 (DistributedCopy_backends (P := P) "gs://src/data" "hdfs:///data"
                  None Scenario.w0)
           [("mapreduce.job.maps", "8")] eq_refl).
Defined.

Module DbMetadataFacts.
Import Db DbMetadata.

Lemma lookup_mset_eq (m : metadata_t) (k : string) (x : pyval) :
  lookup_key k (mset k x m) = Some x.
Proof.
  induction m as [| [k1 v1] r IH]; simpl; [by rewrite String.eqb_refl |].
  destruct (String.eqb_spec k k1) as [-> | Hne]; simpl.
  - by rewrite String.eqb_refl.
  - destruct (String.eqb_spec k k1); [contradiction | exact IH].
Qed.

Lemma lookup_mset_ne (m : metadata_t) (k k' : string) (x : pyval) :
  k <> k' -> lookup_key k (mset k' x m) = lookup_key k m.
Proof.
  intros Hne. induction m as [| [k1 v1] r IH]; simpl.
  - destruct (String.eqb_spec k k'); [contradiction | reflexivity].
  - destruct (String.eqb_spec k' k1) as [-> | Hne1]; simpl.
    + destruct (String.eqb_spec k k1); [contradiction | reflexivity].
    + destruct (String.eqb_spec k k1); [reflexivity | exact IH].
Qed.

(** X22. [GetResourceMetadata] needs a group named clients in the spec and
    raises [KeyError] without one.  With it (and the instance id, and for
    an unmanaged database the innodb attributes), the call succeeds exactly
    when the database and the client machine are both described: by a
    machine type that is not empty, or by cpus and memory, or, for the
    database only, by tier and compute units.  A machine type takes
    precedence: the metadata then holds [machine_type] and none of [cpus],
    [memory], [tier], [compute_units].  When the database is not described
    the error is [RelationalDbPropertyNotSet]. *)
Theorem GetResourceMetadata_machine (self : BaseRelationalDb)
    (mspec : MetadataSpec) (instance_id : option pyval) (db_flags : list string) :
  (lookup_key "clients" (vm_groups mspec) = None ->
     GetResourceMetadata self mspec instance_id db_flags = Err (PyKeyError "clients"))
  /\ (forall clients iid,
        lookup_key "clients" (vm_groups mspec) = Some clients ->
        instance_id = Some iid ->
        (is_managed_db self = true
         \/ exists pool log, innodb_buffer_pool_size self = Some pool
                             /\ innodb_log_file_size self = Some log) ->
        let db := db_spec mspec in
        let cl := vm_spec clients in
        let db_described :=
          has_truthy (machine_type db)
          || (has_attr (cpus db) && has_attr (memory db))
          || (has_attr (tier db) && has_attr (compute_units db)) in
        let client_described :=
          has_truthy (machine_type cl)
          || (has_attr (cpus cl) && has_attr (memory cl)) in
        ((exists md, GetResourceMetadata self mspec instance_id db_flags = Ok md)
         <-> db_described && client_described = true)
        /\ (db_described = false ->
            GetResourceMetadata self mspec instance_id db_flags
            = Err (RelationalDbPropertyNotSet
                     "Machine type of the database must be set."))
        /\ (forall md v,
              GetResourceMetadata self mspec instance_id db_flags = Ok md ->
              machine_type db = Some v -> truthy_val v = true ->
              lookup_key "machine_type" md = Some v
              /\ lookup_key "cpus" md = None
              /\ lookup_key "memory" md = None
              /\ lookup_key "tier" md = None
              /\ lookup_key "compute_units" md = None)).
Proof.
  split.
  - intros Hc. unfold GetResourceMetadata, subscript. by rewrite Hc.
  - intros clients iid Hc -> Hinno db cl db_described client_described.
    subst db_described client_described db cl.
    unfold GetResourceMetadata, subscript. rewrite Hc.
    cbv zeta.
    match goal with
    | |- context [if negb (is_managed_db self) then ?a else ?b] =>
        assert (Hstage : exists base : metadata_t,
                  (if negb (is_managed_db self) then a else b) = Ok base
                  /\ lookup_key "machine_type" base = None
                  /\ lookup_key "cpus" base = None
                  /\ lookup_key "memory" base = None
                  /\ lookup_key "tier" base = None
                  /\ lookup_key "compute_units" base = None)
    end.
    { destruct Hinno as [-> | (pool & log & -> & ->)].
      - eexists. repeat split.
      - destruct (is_managed_db self); eexists; repeat split. }
    destruct Hstage as (base & -> & Hmt & Hcpus & Hmem & Htier & Hcu).
    split; [| split].
    + destruct (has_truthy (machine_type (db_spec mspec)));
        [| destruct (has_attr (cpus (db_spec mspec)) && has_attr (memory (db_spec mspec)));
           [| destruct (has_attr (tier (db_spec mspec))
                        && has_attr (compute_units (db_spec mspec)))]];
        cbn [orb andb];
        try (destruct (has_truthy (machine_type (vm_spec clients)));
             [| destruct (has_attr (cpus (vm_spec clients))
                          && has_attr (memory (vm_spec clients)))];
             cbn [orb];
             destruct db_flags;
             (split; [intros [md Hmd]; first [reflexivity | discriminate]
                     | intros Hd; first [discriminate | eexists; reflexivity]])).
    + intros Hnot. apply orb_false_iff in Hnot as [Hnot Ht].
      apply orb_false_iff in Hnot as [Hm Hc2]. by rewrite Hm, Hc2, Ht.
    + intros md v Hmd Hv Htruthy.
      assert (Hht : has_truthy (machine_type (db_spec mspec)) = true)
        by (unfold has_truthy; by rewrite Hv).
      rewrite Hht, Hv in Hmd. cbn [default from_option] in Hmd.
      unfold mupdate in Hmd. cbn [fold_left fst snd] in Hmd.
      destruct (has_truthy (machine_type (vm_spec clients)));
        [| destruct (has_attr (cpus (vm_spec clients))
                     && has_attr (memory (vm_spec clients))); [| discriminate]];
        destruct db_flags; injection Hmd as <-;
        rewrite ?lookup_mset_ne by discriminate;
        rewrite ?lookup_mset_eq, ?lookup_mset_ne by discriminate;
        repeat split; assumption || reflexivity.
Qed.

End DbMetadataFacts.

Lemma GetResourceMetadata_machine_witness :
  let self := Db.mkDb DbScenario.spec57 true (Some "10.0.0.2") None None None
                None None in
  let machine := DbMetadata.mkMachineSpec (VStr "us-east1-b")
                   (Some (VStr "db-n1-standard-4")) (Some (VInt 4))
                   (Some (VStr "15GiB")) None None in
  let disk := DbMetadata.mkDiskSpec (VStr "pd-ssd") (VInt 100) in
  let mspec := DbMetadata.mkMetadataSpec machine disk (VBool true) (VStr "07:00")
                 [("clients", DbMetadata.mkVmGroupSpec machine disk)] in
  exists md,
    DbMetadata.GetResourceMetadata self mspec (Some (VStr "pkb-db-1")) [] = Db.Ok md
    /\ lookup_key "machine_type" md = Some (VStr "db-n1-standard-4")
    /\ lookup_key "cpus" md = None.
Proof.
  intros self machine disk mspec.
  destruct (proj2 (DbMetadataFacts.GetResourceMetadata_machine self mspec
                     (Some (VStr "pkb-db-1")) [])
              (DbMetadata.mkVmGroupSpec machine disk) (VStr "pkb-db-1")
              eq_refl eq_refl (or_introl eq_refl))
    as ([_ Hok] & _ & Hshape).
  destruct (Hok eq_refl) as [md Hmd].
  exists md. split; [exact Hmd |].
  destruct (Hshape md (VStr "db-n1-standard-4") Hmd eq_refl eq_refl)
    as (Hmt & Hcpus & _).
  split; assumption.
Defined.

Module DbClientFacts.
Import Db.

Section Client.
Context {World : Type} `{P : Platform World}.

(** X23. [_InstallMySQLClient] runs nothing on an engine version without
    client package (the error names the version) and nothing on a database
    whose client machine is not set; a failing installation of the package
    ends the call, and the configuration file is then neither edited nor
    printed. *)
Theorem InstallMySQLClient_guards (self : BaseRelationalDb) (w : World) :
  (forall e, client_mysql_name (engine_version (spec self)) = Err e ->
     _InstallMySQLClient self w = (Err e, w))
  /\ (forall name, client_mysql_name (engine_version (spec self)) = Ok name ->
        _client_vm self = None ->
        _InstallMySQLClient self w
        = (Err (RelationalDbPropertyNotSet "client_vm is not set"), w))
  /\ (forall name vm e w1,
        client_mysql_name (engine_version (spec self)) = Ok name ->
        _client_vm self = Some vm ->
        Install vm name w = (Err e, w1) ->
        _InstallMySQLClient self w = (Err e, w1)).
Proof.
  unfold _InstallMySQLClient, dbind, dlift, client_vm.
  split; [| split].
  - intros e ->. reflexivity.
  - intros name -> ->. reflexivity.
  - intros name vm e w1 -> -> ->. reflexivity.
Qed.

End Client.

End DbClientFacts.

Lemma InstallMySQLClient_guards_witness :
  let P := DbScenario.platform false [] in
  let self := Db.mkDb (Db.mkSpec "mysql" "10.4" false None None) false (Some "")
                None (Some DbScenario.client) None (Some None) (Some 1000) in
  exists msg, Db._InstallMySQLClient self [] = (Db.Err (Db.PyException msg), []).
Proof.
  intros P self. eexists.
  apply (proj1 (DbClientFacts.InstallMySQLClient_guards (P := P) self [])).
  reflexivity.
Defined.
